(** * Session lifecycle tracking of the accessibility learning application

    A shallow embedding of the three code paths that open and close learning
    sessions, and the properties of the session/profile bookkeeping:

    - [AuthContext]    : the browser side ([src/context/AuthContext.tsx]):
                         [fetchProfile], [createSession], [closeSession], the
                         auth-state listener, the start-up check, the unload
                         beacon and [logout];
    - [AuthController] : the Express controller
                         ([backend/controllers/authController.js]): [login]
                         and [logout] over the Mongoose models;
    - [CloseSession]   : the edge function behind [/functions/v1/close-session]
                         (the [serve] handler).

    Modelling conventions.
    - A [Date] is its [getTime()] value: milliseconds since the epoch, in [Z].
      [toISOString] followed by [new Date(...)] is the identity on it.
    - Every [new Date()] the code evaluates is an explicit argument (the clock
      reading at that point); every identifier the database generates on
      insert is an explicit argument too.
    - The two backends hold rows of the same shape (the Mongoose models spell
      the fields in camelCase, the SQL tables in snake_case); one [Db] type
      serves both, the access functions differ.
    - A table is a finite map from primary key to row.  Every persistence call
      is appended to [calls], so that "no persistence call was made" can be
      stated.  Row-level-security policies and transport faults are outside
      the model: a call fails only for a reason visible in the data (missing
      row, key or foreign-key violation, identifier that does not cast, a
      number that does not fit an INTEGER column of the SQL tables).  The
      Mongoose models declare [Number], which has no such bound. *)

From stdpp Require Import gmap strings list fin_maps sorting pretty.
From Stdlib Require Import ZArith Lia.

Local Open Scope string_scope.
Local Open Scope Z_scope.

(** ** Data model *)

(** A row of [public.profiles] / a [User] document. *)
Record Profile := mkProfile {
  email : string;
  last_login_at : option Z;
  last_logout_at : option Z;
  total_active_minutes : Z
}.

(** A row of [public.sessions] / a [Session] document ([sessionSchema]):
    [logout_at] and [duration_minutes] are the two optional fields. *)
Record Session := mkSession {
  user_id : string;
  login_at : Z;
  logout_at : option Z;
  duration_minutes : option Z
}.

Inductive DbCall :=
| SelectSession (id : string)
| InsertSession (id : string)
| UpdateSession (id : string)
| SelectProfile (id : string)
| UpdateProfile (id : string)
| FindProfile (email : string).

Record Db := mkDb {
  sessions : gmap string Session;
  profiles : gmap string Profile;
  calls : list DbCall
}.

(** The argument of [new Date(s)] for a non-empty string [s]: a time, or
    "Invalid Date" (whose [getTime()] is NaN and whose [toISOString()]
    throws a RangeError). *)
Inductive DateString :=
| ValidDate (ms : Z)
| InvalidDate.

(** The JSON object the unload beacon sends; a field is [None] when it is
    absent. *)
Record Payload := mkPayload {
  session_id : option string;
  payload_user_id : option string;
  payload_logout_at : option DateString
}.

(** A request to the edge function; [json = None] when the body is not a
    JSON object ([req.json()] rejects, or the destructuring throws). *)
Record Request := mkRequest {
  method : string;
  json : option Payload
}.

(** What the two servers answer: the status and the JSON body. *)
Inductive Body :=
| Empty
| Failure (message : string)
| LoggedIn (sessionId : string)
| LoggedOut (durationMinutes : Z)
| Closed (duration_minutes : Z).

Record Response := mkResponse {
  status : Z;
  body : Body
}.

(** ** JavaScript fragments *)

(** [!!v] for a value that is a string or absent: the empty string is falsy. *)
Definition truthy (v : option string) : bool :=
  match v with
  | Some s => negb (String.eqb s "")
  | None => false
  end.

(** [n || 0] on a number: [0] is the only falsy integer. *)
Definition or_zero (n : Z) : Z := if n =? 0 then 0 else n.

(** [Math.round(ms / (1000 * 60))] for an integer number of milliseconds.
    [Math.round] yields the nearest integer, a tie going up: the floor of
    [x + 1/2]; on [ms / 60000] that is the floor of [(ms + 30000) / 60000]. *)
Definition round_minutes (ms : Z) : Z := (ms + 30000) / (1000 * 60).

(** The values of a PostgreSQL [INTEGER] column ([duration_minutes],
    [total_active_minutes]): 32 bits, signed. *)
Definition int4 (n : Z) : bool := (-2147483648 <=? n) && (n <=? 2147483647).

(** ** The persistence monad *)

Definition M (A : Type) : Type := Db -> A * Db.

Definition ret {A} (a : A) : M A := fun db => (a, db).
Definition bind {A B} (m : M A) (k : A -> M B) : M B :=
  fun db => let '(a, db') := m db in k a db'.

Notation "'let!' x ':=' m 'in' k" := (bind m (fun x => k))
  (at level 10, x name, m at level 100, k at level 200).
Notation "'run!' m 'in' k" := (bind m (fun _ => k))
  (at level 10, m at level 100, k at level 200).

Definition log (c : DbCall) (db : Db) : Db :=
  mkDb (sessions db) (profiles db) (c :: calls db).

Definition with_sessions (m : gmap string Session) (db : Db) : Db :=
  mkDb m (profiles db) (calls db).

Definition with_profiles (m : gmap string Profile) (db : Db) : Db :=
  mkDb (sessions db) m (calls db).

(** Row updates: the column lists of the [update({...})] calls. *)
Definition set_logout (t d : Z) (s : Session) : Session :=
  mkSession (user_id s) (login_at s) (Some t) (Some d).

Definition set_last_login (t : Z) (p : Profile) : Profile :=
  mkProfile (email p) (Some t) (last_logout_at p) (total_active_minutes p).

Definition set_last_logout (t total : Z) (p : Profile) : Profile :=
  mkProfile (email p) (last_login_at p) (Some t) total.

(** ** The hosted backend: the calls of the [supabase] client

    [single()] and [maybeSingle()] yield [data = null] when no row matches
    (a key that is no UUID matches none); an [update] that matches no row
    changes nothing.  An [update] answers its [error]: [true] below means
    [error = null].  A number outside [int4] for an INTEGER column is an
    error, and the row stays as it was. *)
Module Supabase.

(** [from('sessions').select('login_at').eq('id', id).single()] *)
Definition select_login_at (id : string) : M (option Z) :=
  fun db => (login_at <$> sessions db !! id, log (SelectSession id) db).

(** [from('profiles').select('total_active_minutes').eq('id', id).single()] *)
Definition select_total_active_minutes (id : string) : M (option Z) :=
  fun db => (total_active_minutes <$> profiles db !! id, log (SelectProfile id) db).

(** [from('profiles').select('*').eq('id', id).maybeSingle()] *)
Definition select_profile (id : string) : M (option Profile) :=
  fun db => (profiles db !! id, log (SelectProfile id) db).

(** [from('sessions').insert({user_id, login_at}).select('id').single()].
    [id] is the value of [gen_random_uuid()] for the new row.  The insert
    is refused ([error] set, [data = null]) when [user_id] references no
    profile or the key is taken; the other two columns default to NULL. *)
Definition insert_session (id userId : string) (loginAt : Z) : M (option string) :=
  fun db =>
    match profiles db !! userId, sessions db !! id with
    | Some _, None =>
        (Some id,
         log (InsertSession id)
           (with_sessions (<[id := mkSession userId loginAt None None]> (sessions db)) db))
    | _, _ => (None, log (InsertSession id) db)
    end.

(** [from('sessions').update({logout_at, duration_minutes}).eq('id', id)] *)
Definition update_session (id : string) (logoutAt duration : Z) : M bool :=
  fun db =>
    if int4 duration then
      (true, log (UpdateSession id)
               (with_sessions (alter (set_logout logoutAt duration) id (sessions db)) db))
    else (false, log (UpdateSession id) db).

(** [from('profiles').update({last_login_at}).eq('id', id)] *)
Definition update_last_login (id : string) (t : Z) : M unit :=
  fun db =>
    (tt, log (UpdateProfile id)
           (with_profiles (alter (set_last_login t) id (profiles db)) db)).

(** [from('profiles').update({last_logout_at, total_active_minutes}).eq('id', id)] *)
Definition update_last_logout (id : string) (t total : Z) : M bool :=
  fun db =>
    if int4 total then
      (true, log (UpdateProfile id)
               (with_profiles (alter (set_last_logout t total) id (profiles db)) db))
    else (false, log (UpdateProfile id) db).

End Supabase.

(** ** The browser side: [AuthProvider] *)
Module AuthContext.
Import Supabase.

Inductive AuthChangeEvent :=
| INITIAL_SESSION
| SIGNED_IN
| SIGNED_OUT
| TOKEN_REFRESHED
| USER_UPDATED
| PASSWORD_RECOVERY.

(** The provider's React state ([user] holds [user.id]) and the tab's
    [sessionStorage]. *)
Record Client := mkClient {
  user : option string;
  profile : option Profile;
  currentSessionId : option string;
  isLoading : bool;
  sessionStorage : gmap string string
}.

Definition setUser (u : option string) (c : Client) : Client :=
  mkClient u (profile c) (currentSessionId c) (isLoading c) (sessionStorage c).
Definition setProfile (p : option Profile) (c : Client) : Client :=
  mkClient (user c) p (currentSessionId c) (isLoading c) (sessionStorage c).
Definition setCurrentSessionId (i : option string) (c : Client) : Client :=
  mkClient (user c) (profile c) i (isLoading c) (sessionStorage c).
Definition setIsLoading (b : bool) (c : Client) : Client :=
  mkClient (user c) (profile c) (currentSessionId c) b (sessionStorage c).
Definition setItem (k v : string) (c : Client) : Client :=
  mkClient (user c) (profile c) (currentSessionId c) (isLoading c)
           (<[k := v]> (sessionStorage c)).
Definition removeItem (k : string) (c : Client) : Client :=
  mkClient (user c) (profile c) (currentSessionId c) (isLoading c)
           (delete k (sessionStorage c)).
Definition getItem (k : string) (c : Client) : option string :=
  sessionStorage c !! k.

Definition fetchProfile (userId : string) : M (option Profile) :=
  select_profile userId.

(** [new_id] is the key the database gives the row; [t_insert] and
    [t_update] are the two [new Date()] readings.  The result is
    [data?.id || null]. *)
Definition createSession (new_id : string) (t_insert t_update : Z)
    (userId : string) : M (option string) :=
  let! data := insert_session new_id userId t_insert in
  match data with
  | None => ret None
  | Some id =>
      run! update_last_login userId t_update in
      ret (if truthy (Some id) then Some id else None)
  end.

(** [now] is the reading of [new Date()] that becomes [logoutAt]. *)
Definition closeSession (now : Z) (sessionId userId : string) : M unit :=
  let! sessionData := select_login_at sessionId in
  match sessionData with
  | None => ret tt
  | Some loginAt =>
      let logoutAt := now in
      let durationMinutes := round_minutes (logoutAt - loginAt) in
      run! update_session sessionId logoutAt durationMinutes in
      let! profileData := select_total_active_minutes userId in
      match profileData with
      | Some total =>
          run! update_last_logout userId logoutAt (or_zero total + durationMinutes) in
          ret tt
      | None => ret tt
      end
  end.

(** The body the [SIGNED_IN] branch defers with [setTimeout(..., 0)]. *)
Definition onSignedIn (new_id : string) (t_insert t_update : Z)
    (userId : string) (c : Client) : M Client :=
  let! userProfile := fetchProfile userId in
  let c := setProfile userProfile c in
  let! sessionId := createSession new_id t_insert t_update userId in
  let c := setCurrentSessionId sessionId c in
  ret (if truthy sessionId
       then setItem "user_id" userId
              (setItem "learning_session_id" (default "" sessionId) c)
       else c).

(** The listener given to [supabase.auth.onAuthStateChange];
    [currentSession] is [currentSession?.user.id].  The deferred body runs
    once the listener has returned. *)
Definition onAuthStateChange (new_id : string) (t_insert t_update : Z)
    (event : AuthChangeEvent) (currentSession : option string)
    (c : Client) : M Client :=
  let c := setUser currentSession c in
  match event with
  | SIGNED_IN =>
      match currentSession with
      | Some userId => onSignedIn new_id t_insert t_update userId c
      | None => ret c
      end
  | SIGNED_OUT =>
      ret (removeItem "user_id"
             (removeItem "learning_session_id"
                (setCurrentSessionId None (setProfile None c))))
  | _ => ret c
  end.

(** The continuation of [supabase.auth.getSession()] at start-up. *)
Definition getSession_then (new_id : string) (t_insert t_update : Z)
    (existingSession : option string) (c : Client) : M Client :=
  let c := setUser existingSession c in
  let! c :=
    match existingSession with
    | Some userId =>
        let! userProfile := fetchProfile userId in
        let c := setProfile userProfile c in
        let storedSessionId := getItem "learning_session_id" c in
        if truthy storedSessionId then
          ret (setCurrentSessionId storedSessionId c)
        else
          let! newSessionId := createSession new_id t_insert t_update userId in
          let c := setCurrentSessionId newSessionId c in
          ret (if truthy newSessionId
               then setItem "user_id" userId
                      (setItem "learning_session_id" (default "" newSessionId) c)
               else c)
    | None => ret c
    end in
  ret (setIsLoading false c).

(** The [beforeunload] handler: the payload given to [sendBeacon], if any. *)
Definition handleBeforeUnload (now : Z) (c : Client) : option Payload :=
  let sessionId := getItem "learning_session_id" c in
  let userId := getItem "user_id" c in
  if truthy sessionId && truthy userId
  then Some (mkPayload sessionId userId (Some (ValidDate now)))
  else None.

(** [logout], up to the call of [supabase.auth.signOut()] (which makes the
    listener run with [SIGNED_OUT]). *)
Definition logout (now : Z) (c : Client) : M unit :=
  match user c with
  | Some userId =>
      if truthy (currentSessionId c)
      then closeSession now (default "" (currentSessionId c)) userId
      else ret tt
  | None => ret tt
  end.

End AuthContext.

(** ** The Express API: [authController.js] over the Mongoose models *)
Module AuthController.

(** What a Mongoose query promise settles to. *)
Inductive Settled (A : Type) :=
| Resolved (a : A)
| Rejected.
Arguments Resolved {A} a.
Arguments Rejected {A}.

Section Controller.

(** Mongoose's cast of a request string to an [ObjectId]: whether it
    succeeds.  ([models/User.js] and the library are not part of the
    sources, so both are taken as given.) *)
Variable castsToObjectId : string -> bool.

(** [user.comparePassword(password)], for the document with the given
    [_id]. *)
Variable comparePassword : string -> string -> bool.

(** [Session.findById(id)] for an [id] taken from the request body: the
    query is rejected with a [CastError] when [id] is no [ObjectId]. *)
Definition Session_findById (id : string) : M (Settled (option Session)) :=
  fun db =>
    if castsToObjectId id
    then (Resolved (sessions db !! id), log (SelectSession id) db)
    else (Rejected, db).

(** [User.findById(req.user._id)]: the argument is an [ObjectId] already. *)
Definition User_findById (id : string) : M (option Profile) :=
  fun db => (profiles db !! id, log (SelectProfile id) db).

(** [User.findOne({ email })]: a document with that address, if any. *)
Definition User_findOne (e : string) : M (option (string * Profile)) :=
  fun db =>
    (head (filter (fun kv => email kv.2 = e) (map_to_list (profiles db))),
     log (FindProfile e) db).

(** [doc.save()] of a document read before. *)
Definition Session_save (id : string) (doc : Session) : M unit :=
  fun db => (tt, log (UpdateSession id) (with_sessions (<[id := doc]> (sessions db)) db)).

Definition User_save (id : string) (doc : Profile) : M unit :=
  fun db => (tt, log (UpdateProfile id) (with_profiles (<[id := doc]> (profiles db)) db)).

(** [Session.create({ userId, loginAt })]; [id] is the new [_id]. *)
Definition Session_create (id userId : string) (loginAt : Z) : M string :=
  fun db =>
    (id, log (InsertSession id)
           (with_sessions (<[id := mkSession userId loginAt None None]> (sessions db)) db)).

(** [login]: [t_user] and [t_session] are the two [new Date()] readings,
    [new_id] the [_id] of the session document. *)
Definition login (new_id : string) (t_user t_session : Z)
    (email password : option string) : M Response :=
  if negb (truthy email) || negb (truthy password) then
    ret (mkResponse 400 (Failure "Please provide email and password"))
  else
    let! user := User_findOne (default "" email) in
    match user with
    | None => ret (mkResponse 401 (Failure "Invalid credentials"))
    | Some (_id, user) =>
        let isMatch := comparePassword _id (default "" password) in
        if negb isMatch then
          ret (mkResponse 401 (Failure "Invalid credentials"))
        else
          run! User_save _id (set_last_login t_user user) in
          let! session := Session_create new_id _id t_session in
          ret (mkResponse 200 (LoggedIn session))
    end.

(** [logout]: [caller] is [req.user._id] as the [auth] middleware set it,
    [sessionId] the field of the request body, [now] the reading of
    [new Date()]. *)
Definition logout (now : Z) (caller : string) (sessionId : option string)
    : M Response :=
  if negb (truthy sessionId) then
    ret (mkResponse 400 (Failure "Session ID is required"))
  else
    let id := default "" sessionId in
    let! found := Session_findById id in
    match found with
    | Rejected => ret (mkResponse 500 (Failure "Server error during logout"))
    | Resolved None => ret (mkResponse 404 (Failure "Session not found"))
    | Resolved (Some session) =>
        if negb (String.eqb (user_id session) caller) then
          ret (mkResponse 403 (Failure "Not authorized to access this session"))
        else
          let logoutTime := now in
          let durationMs := logoutTime - login_at session in
          let session :=
            set_logout logoutTime (Z.max 0 (round_minutes durationMs)) session in
          run! Session_save id session in
          let durationMinutes := default 0 (duration_minutes session) in
          let! user := User_findById caller in
          run! match user with
               | Some user =>
                   User_save caller
                     (set_last_logout logoutTime
                        (or_zero (total_active_minutes user) + durationMinutes) user)
               | None => ret tt
               end in
          ret (mkResponse 200 (LoggedOut durationMinutes))
    end.

End Controller.
End AuthController.

(** ** The edge function [close-session] *)
Module CloseSession.
Import Supabase.

(** [serve]'s handler; [now] is the reading of [new Date()] used when the
    payload carries no [logout_at]. *)
Definition serve (now : Z) (req : Request) : M Response :=
  if String.eqb (method req) "OPTIONS" then ret (mkResponse 200 Empty)
  else
    match json req with
    | None => ret (mkResponse 500 (Failure "Internal server error"))
    | Some payload =>
        if negb (truthy (session_id payload)) || negb (truthy (payload_user_id payload))
        then ret (mkResponse 400 (Failure "Missing required fields"))
        else
          let session_id := default "" (session_id payload) in
          let user_id := default "" (payload_user_id payload) in
          let! sessionData := select_login_at session_id in
          match sessionData with
          | None => ret (mkResponse 404 (Failure "Session not found"))
          | Some loginAt =>
              let logoutTime :=
                match payload_logout_at payload with
                | Some d => d
                | None => ValidDate now
                end in
              match logoutTime with
              | InvalidDate => ret (mkResponse 500 (Failure "Internal server error"))
              | ValidDate logoutTime =>
                  let durationMinutes :=
                    Z.max 0 (round_minutes (logoutTime - loginAt)) in
                  let! updateSessionOk :=
                    update_session session_id logoutTime durationMinutes in
                  let! profileData := select_total_active_minutes user_id in
                  run! match profileData with
                       | Some total =>
                           let! updateProfileOk :=
                             update_last_logout user_id logoutTime
                               (or_zero total + durationMinutes) in
                           ret tt
                       | None => ret tt
                       end in
                  ret (mkResponse 200 (Closed durationMinutes))
              end
          end
    end.

End CloseSession.

(** ** The lifecycle as a transition system *)
Section Lifecycle.

Variable castsToObjectId : string -> bool.
Variable comparePassword : string -> string -> bool.

(** One call of a lifecycle operation, with everything it reads from the
    outside (clock readings, generated keys, request contents). *)
Inductive Op :=
| CreateSession (new_id : string) (t_insert t_update : Z) (userId : string)
| CloseSessionClient (now : Z) (sessionId userId : string)
| Login (new_id : string) (t_user t_session : Z) (email password : option string)
| Logout (now : Z) (caller : string) (sessionId : option string)
| Beacon (now : Z) (req : Request).

Definition step (op : Op) (db : Db) : Db :=
  match op with
  | CreateSession new_id t1 t2 userId =>
      (AuthContext.createSession new_id t1 t2 userId db).2
  | CloseSessionClient now sessionId userId =>
      (AuthContext.closeSession now sessionId userId db).2
  | Login new_id t1 t2 e pw =>
      (AuthController.login comparePassword new_id t1 t2 e pw db).2
  | Logout now caller sessionId =>
      (AuthController.logout castsToObjectId now caller sessionId db).2
  | Beacon now req =>
      (CloseSession.serve now req db).2
  end.

(** The stores the operations can produce, from one with no session yet. *)
Inductive reachable : Db -> Prop :=
| reachable_init db : sessions db = ∅ -> reachable db
| reachable_step db op : reachable db -> reachable (step op db).

End Lifecycle.

(** [logout_at] is null iff [duration_minutes] is. *)
Definition paired (s : Session) : Prop :=
  logout_at s = None <-> duration_minutes s = None.

Definition all_paired (db : Db) : Prop :=
  map_Forall (fun _ s => paired s) (sessions db).

(** The canonical spelling of an [ObjectId]: 24 hexadecimal digits. *)
Definition is_hex_digit (c : Ascii.ascii) : bool :=
  let n := Ascii.nat_of_ascii c in
  ((48 <=? n) && (n <=? 57) || (65 <=? n) && (n <=? 70) || (97 <=? n) && (n <=? 102))%nat.

Definition is_hex24 (s : string) : bool :=
  (length (String.list_ascii_of_string s) =? 24)%nat
  && forallb is_hex_digit (String.list_ascii_of_string s).

(** The profile table after [user] has been credited [d] minutes at [t]. *)
Definition credited (t d : Z) (user : string) (ps : gmap string Profile)
    : gmap string Profile :=
  match ps !! user with
  | Some p => <[user := set_last_logout t (total_active_minutes p + d) p]> ps
  | None => ps
  end.

(** The two tables of the hosted backend after the updates of a close: a
    row is rewritten when the number sent for its INTEGER column fits. *)
Definition closed_if_fits (t d : Z) (sid : string) (s : Session)
    (ss : gmap string Session) : gmap string Session :=
  if int4 d then <[sid := set_logout t d s]> ss else ss.

Definition credited_if_fits (t d : Z) (user : string) (ps : gmap string Profile)
    : gmap string Profile :=
  match ps !! user with
  | Some p =>
      if int4 (total_active_minutes p + d)
      then <[user := set_last_logout t (total_active_minutes p + d) p]> ps
      else ps
  | None => ps
  end.




(** Every profile of [ps] is still in [ps'], with the same
    [total_active_minutes], [last_logout_at] and [email]. *)
Definition keeps_totals_and_logouts (ps ps' : gmap string Profile) : Prop :=
  forall k p,
    ps !! k = Some p ->
    exists p',
      ps' !! k = Some p'
      /\ total_active_minutes p' = total_active_minutes p
      /\ last_logout_at p' = last_logout_at p
      /\ email p' = email p.

(** Between [db] and [db'] the profile [uid] got [last_login_at = t] and
    nothing else: its other columns, and all other profiles, are the same. *)
Definition only_last_login_set (uid : string) (t : Z) (db db' : Db) : Prop :=
  last_login_at <$> profiles db' !! uid = Some (Some t)
  /\ total_active_minutes <$> profiles db' !! uid
     = total_active_minutes <$> profiles db !! uid
  /\ last_logout_at <$> profiles db' !! uid = last_logout_at <$> profiles db !! uid
  /\ email <$> profiles db' !! uid = email <$> profiles db !! uid
  /\ (forall other, other <> uid -> profiles db' !! other = profiles db !! other).

(** A computation keeps an invariant of the store. *)
Definition preserves {A} (I : Db -> Prop) (m : M A) : Prop :=
  forall db, I db -> I (m db).2.

(** ** The pages that read the bookkeeping *)

(** [routes/ProtectedRoute.tsx] and the provider's [isAuthenticated]. *)
Module ProtectedRoute.

Inductive View :=
| ShowLoader
| NavigateToAuth
| Children.

(** [isAuthenticated: !!user] of the context value. *)
Definition isAuthenticated (c : AuthContext.Client) : bool :=
  match AuthContext.user c with
  | Some _ => true
  | None => false
  end.

Definition ProtectedRoute (isAuthenticated isLoading : bool) : View :=
  if isLoading then ShowLoader
  else if negb isAuthenticated then NavigateToAuth
  else Children.

End ProtectedRoute.

(** [pages/Dashboard.tsx]. *)
Module Dashboard.

(** The early returns of the component, before it renders the page. *)
Definition guard (isAuthenticated isLoading : bool) : ProtectedRoute.View :=
  if negb isLoading && negb isAuthenticated then ProtectedRoute.NavigateToAuth
  else if isLoading then ProtectedRoute.ShowLoader
  else ProtectedRoute.Children.

(** [formatTime]; a number in a template literal is written in decimal, a
    minus sign first when it is negative. *)
Definition formatTime (minutes : Z) : string :=
  if minutes <? 60 then
    pretty minutes +:+ " minute" +:+ (if negb (minutes =? 1) then "s" else "")
  else
    let hours := minutes / 60 in
    let mins := Z.rem minutes 60 in
    pretty hours +:+ " hour" +:+ (if negb (hours =? 1) then "s" else "") +:+ " "
    +:+ (if 0 <? mins
         then "and " +:+ pretty mins +:+ " minute" +:+ (if negb (mins =? 1) then "s" else "")
         else "").

(** The order of [.order('login_at', { ascending: false })]. *)
Definition newer_first (a b : string * Session) : Prop :=
  login_at b.2 <= login_at a.2.

#[global] Instance newer_first_dec a b : Decision (newer_first a b).
Proof. unfold newer_first. apply _. Defined.

(** The [data] of
    [from('sessions').select('*').eq('user_id', id).order('login_at', ...).limit(5)]:
    rows with their keys.  The query only reads. *)
Definition select_recent (userId : string) (db : Db) : list (string * Session) :=
  take 5 (merge_sort newer_first
            (filter (fun kv => user_id kv.2 = userId) (map_to_list (sessions db)))).

(** The component's state that [fetchSessions] sets. *)
Record State := mkState {
  recentSessions : list (string * Session);
  isLoadingSessions : bool
}.

Definition fetchSessions (user : option string) (db : Db) (st : State) : State :=
  match user with
  | None => st
  | Some userId => mkState (select_recent userId db) false
  end.

(** One row of "Recent Learning Sessions": the icon on the left, the cell on
    the right. *)
Inductive Icon := CheckCircle | Activity.
Inductive Cell := Duration (text : string) | ActiveNow.

Definition session_row (session : Session) : Icon * Cell :=
  (match logout_at session with
   | Some _ => CheckCircle
   | None => Activity
   end,
   match duration_minutes session with
   | Some d => Duration (formatTime d)
   | None => ActiveNow
   end).

End Dashboard.

(** ** Gluing calls together *)

(** The [sessionId] a client reads in the answer of [login]. *)
Definition sessionId_of (r : Response) : option string :=
  match body r with
  | LoggedIn id => Some id
  | _ => None
  end.

(** The provider after the page is loaded again in the same tab: the React
    state is back at its [useState] defaults, [sessionStorage] is as it was. *)
Definition reloaded (c : AuthContext.Client) : AuthContext.Client :=
  AuthContext.mkClient None None None true (AuthContext.sessionStorage c).

(** ** Relations between the store before and after an operation *)

(** No profile lost minutes: each profile of [db] is still in [db'], with a
    total at least as large. *)
Definition totals_nondecreasing (db db' : Db) : Prop :=
  forall uid p, profiles db !! uid = Some p ->
    exists p', profiles db' !! uid = Some p'
               /\ total_active_minutes p <= total_active_minutes p'.

(** The key a [Login] brings for the session document is not in use (the
    other operations check the key themselves, or generate none). *)
Definition brings_fresh_key (op : Op) (db : Db) : Prop :=
  match op with
  | Login new_id _ _ _ _ => sessions db !! new_id = None
  | _ => True
  end.

(** Session [s] of [db] is still there in [db'], with the same owner and
    start, and closed if it was. *)
Definition session_kept (sid : string) (s : Session) (db' : Db) : Prop :=
  exists s', sessions db' !! sid = Some s'
             /\ user_id s' = user_id s
             /\ login_at s' = login_at s
             /\ (logout_at s <> None -> logout_at s' <> None).

(** A string without a blank. *)
Fixpoint no_blank (s : string) : Prop :=
  match s with
  | EmptyString => True
  | String c s' => c <> Ascii.Space /\ no_blank s'
  end.

(** ** Sample data *)

Definition sid1 : string := "65a1b2c3d4e5f60718293a4b".
Definition sid2 : string := "65a1b2c3d4e5f60718293a4c".
Definition uid1 : string := "65a1b2c3d4e5f60718293a01".
Definition uid2 : string := "65a1b2c3d4e5f60718293a02".

Definition alice : Profile := mkProfile "alice@example.org" None None 0.
Definition bob : Profile := mkProfile "bob@example.org" None None 30.

(** Alice and Bob are registered; Alice opened session [sid1] at 00:10:00. *)
Definition sample_db : Db :=
  mkDb {[ sid1 := mkSession uid1 600000 None None ]}
       (<[uid1 := alice]> {[ uid2 := bob ]})
       [].

(** Both are registered, nobody has opened a session yet. *)
Definition fresh_db : Db :=
  mkDb ∅ (<[uid1 := alice]> {[ uid2 := bob ]}) [].

(** Alice's tab while [sid1] is open: the session id is cached. *)
Definition sample_client : AuthContext.Client :=
  AuthContext.mkClient (Some uid1) (Some alice) (Some sid1) false
    (<["learning_session_id" := sid1]> {[ "user_id" := uid1 ]}).

(** The beacon an unloading tab sends for session [sid] and user [uid]. *)
Definition beacon (sid uid : string) (t : Z) : Request :=
  mkRequest "POST" (Some (mkPayload (Some sid) (Some uid) (Some (ValidDate t)))).

(** ** The two close paths of the hosted backend *)



(** ** A sample history *)

(** Alice signs in on the client at 00:10:00 and logs out through the
    controller at 00:17:00. *)
Definition sample_history : list Op :=
  [CreateSession sid1 600000 600001 uid1; Logout 1020000 uid1 (Some sid1)].

Definition sample_closed_db : Db :=
  foldl (fun db op => step is_hex24 (fun _ _ => true) op db) fresh_db sample_history.

(** * Properties *)

(** ** Arithmetic of the duration *)

Lemma or_zero_id n : or_zero n = n.
Proof. unfold or_zero. destruct (Z.eqb_spec n 0); congruence. Qed.


Lemma round_minutes_mono a b : a <= b -> round_minutes a <= round_minutes b.
Proof. intros H. unfold round_minutes. apply Z.div_le_mono; lia. Qed.

(** 10:00:00 to 10:15:30 is 16 minutes; half a minute rounds up. *)
Example round_minutes_15_30 : round_minutes (15 * 60000 + 30000) = 16.
Proof. reflexivity. Qed.

Example round_minutes_half_down : round_minutes (- 90000) = -1.
Proof. reflexivity. Qed.

Lemma truthy_Some s : truthy (Some s) = true <-> s <> "".
Proof.
  simpl. destruct (String.eqb_spec s ""); simpl; split; congruence.
Qed.

(** ** What each close path does to the two tables *)

Ltac unfold_db :=
  unfold bind, ret, log, with_sessions, with_profiles,
    Supabase.select_login_at, Supabase.select_total_active_minutes,
    Supabase.select_profile, Supabase.insert_session, Supabase.update_session,
    Supabase.update_last_login, Supabase.update_last_logout,
    AuthController.Session_findById, AuthController.User_findById,
    AuthController.Session_save, AuthController.User_save,
    AuthController.Session_create in *.

Lemma alter_lookup_Some {A} (f : A -> A) (m : gmap string A) i x :
  m !! i = Some x -> alter f i m = <[i := f x]> m.
Proof.
  intros H. apply map_eq. intros j. destruct (decide (i = j)) as [<-|Hne].
  - rewrite lookup_alter_eq, lookup_insert_eq, H. reflexivity.
  - rewrite lookup_alter_ne, lookup_insert_ne by done. reflexivity.
Qed.

Lemma closeSession_found now sid uid db s :
  sessions db !! sid = Some s ->
  let d := round_minutes (now - login_at s) in
  let db' := (AuthContext.closeSession now sid uid db).2 in
  sessions db' = closed_if_fits now d sid s (sessions db)
  /\ profiles db' = credited_if_fits now d uid (profiles db).
Proof.
  intros Hs. unfold AuthContext.closeSession, closed_if_fits, credited_if_fits.
  unfold_db. simpl. rewrite Hs. simpl.
  destruct (int4 (round_minutes (now - login_at s))); simpl;
    (destruct (profiles db !! uid) as [p|] eqn:Hp; simpl; [rewrite or_zero_id|];
     [destruct (int4 _); simpl|]); split;
    first [done | by apply alter_lookup_Some].
Qed.

Lemma closeSession_not_found now sid uid db :
  sessions db !! sid = None ->
  AuthContext.closeSession now sid uid db = (tt, log (SelectSession sid) db).
Proof.
  intros Hs. unfold AuthContext.closeSession. unfold_db. simpl.
  by rewrite Hs.
Qed.

Section ControllerFacts.

Variable castsToObjectId : string -> bool.

Lemma logout_found now caller sid db s :
  sid <> "" -> castsToObjectId sid = true ->
  sessions db !! sid = Some s -> user_id s = caller ->
  let d := Z.max 0 (round_minutes (now - login_at s)) in
  let r := AuthController.logout castsToObjectId now caller (Some sid) db in
  r.1 = mkResponse 200 (LoggedOut d)
  /\ sessions r.2 = <[sid := set_logout now d s]> (sessions db)
  /\ profiles r.2 = credited now d caller (profiles db).
Proof.
  intros Hne Hcast Hs Hown. apply truthy_Some in Hne.
  unfold AuthController.logout, credited. rewrite Hne. unfold_db. simpl.
  rewrite Hcast, Hs. simpl. rewrite Hown, String.eqb_refl. simpl.
  destruct (profiles db !! caller) as [p|] eqn:Hp; simpl; [|done].
  by rewrite or_zero_id.
Qed.

Lemma logout_not_found now caller sid db :
  sid <> "" -> castsToObjectId sid = true -> sessions db !! sid = None ->
  AuthController.logout castsToObjectId now caller (Some sid) db
  = (mkResponse 404 (Failure "Session not found"), log (SelectSession sid) db).
Proof.
  intros Hne Hcast Hs. apply truthy_Some in Hne.
  unfold AuthController.logout. rewrite Hne. unfold_db. simpl.
  by rewrite Hcast, Hs.
Qed.

Lemma logout_cast_error now caller sid db :
  sid <> "" -> castsToObjectId sid = false ->
  AuthController.logout castsToObjectId now caller (Some sid) db
  = (mkResponse 500 (Failure "Server error during logout"), db).
Proof.
  intros Hne Hcast. apply truthy_Some in Hne.
  unfold AuthController.logout. rewrite Hne. unfold_db. simpl.
  by rewrite Hcast.
Qed.

Lemma logout_missing_id now caller sessionId db :
  truthy sessionId = false ->
  AuthController.logout castsToObjectId now caller sessionId db
  = (mkResponse 400 (Failure "Session ID is required"), db).
Proof. intros H. unfold AuthController.logout. by rewrite H. Qed.

Lemma logout_other_owner now caller sid db s :
  sid <> "" -> castsToObjectId sid = true ->
  sessions db !! sid = Some s -> user_id s <> caller ->
  AuthController.logout castsToObjectId now caller (Some sid) db
  = (mkResponse 403 (Failure "Not authorized to access this session"),
     log (SelectSession sid) db).
Proof.
  intros Hne Hcast Hs Hown. apply truthy_Some in Hne.
  unfold AuthController.logout. rewrite Hne. unfold_db. simpl.
  rewrite Hcast, Hs. simpl.
  destruct (String.eqb_spec (user_id s) caller); [done|]. reflexivity.
Qed.

End ControllerFacts.

(** The edge function on a valid request for an existing session; [t] is
    the logout time it settles on. *)
Lemma serve_found now m sid uid lo db s t :
  m <> "OPTIONS" -> sid <> "" -> uid <> "" ->
  sessions db !! sid = Some s ->
  default (ValidDate now) lo = ValidDate t ->
  let d := Z.max 0 (round_minutes (t - login_at s)) in
  let r := CloseSession.serve now (mkRequest m (Some (mkPayload (Some sid) (Some uid) lo))) db in
  r.1 = mkResponse 200 (Closed d)
  /\ sessions r.2 = closed_if_fits t d sid s (sessions db)
  /\ profiles r.2 = credited_if_fits t d uid (profiles db).
Proof.
  intros Hm Hsid Huid Hs Ht. apply truthy_Some in Hsid, Huid.
  unfold CloseSession.serve, closed_if_fits, credited_if_fits. cbn [method json].
  destruct (String.eqb_spec m "OPTIONS"); [done|].
  cbn [session_id payload_user_id payload_logout_at].
  rewrite Hsid, Huid. unfold_db. simpl. rewrite Hs. simpl.
  replace (match lo with Some d => d | None => ValidDate now end) with (ValidDate t)
    by (destruct lo; simpl in Ht; congruence).
  simpl.
  destruct (int4 (Z.max 0 (round_minutes (t - login_at s)))); simpl;
    (destruct (profiles db !! uid) as [p|] eqn:Hp; simpl; [rewrite or_zero_id|];
     [destruct (int4 _); simpl|]); repeat split;
    first [done | by apply alter_lookup_Some].
Qed.

Lemma serve_not_found now m sid uid lo db :
  m <> "OPTIONS" -> sid <> "" -> uid <> "" ->
  sessions db !! sid = None ->
  CloseSession.serve now (mkRequest m (Some (mkPayload (Some sid) (Some uid) lo))) db
  = (mkResponse 404 (Failure "Session not found"), log (SelectSession sid) db).
Proof.
  intros Hm Hsid Huid Hs. apply truthy_Some in Hsid, Huid.
  unfold CloseSession.serve. cbn [method json].
  destruct (String.eqb_spec m "OPTIONS"); [done|].
  cbn [session_id payload_user_id payload_logout_at].
  rewrite Hsid, Huid. unfold_db. simpl. by rewrite Hs.
Qed.

Lemma serve_invalid_logout_at now m sid uid db s :
  m <> "OPTIONS" -> sid <> "" -> uid <> "" ->
  sessions db !! sid = Some s ->
  CloseSession.serve now
    (mkRequest m (Some (mkPayload (Some sid) (Some uid) (Some InvalidDate)))) db
  = (mkResponse 500 (Failure "Internal server error"), log (SelectSession sid) db).
Proof.
  intros Hm Hsid Huid Hs. apply truthy_Some in Hsid, Huid.
  unfold CloseSession.serve. cbn [method json].
  destruct (String.eqb_spec m "OPTIONS"); [done|].
  cbn [session_id payload_user_id payload_logout_at].
  rewrite Hsid, Huid. unfold_db. simpl. by rewrite Hs.
Qed.

Lemma serve_missing_fields now m p db :
  m <> "OPTIONS" ->
  truthy (session_id p) = false \/ truthy (payload_user_id p) = false ->
  CloseSession.serve now (mkRequest m (Some p)) db
  = (mkResponse 400 (Failure "Missing required fields"), db).
Proof.
  intros Hm Hmiss. unfold CloseSession.serve. cbn [method json].
  destruct (String.eqb_spec m "OPTIONS"); [done|].
  destruct Hmiss as [-> | ->]; simpl; [done|].
  by rewrite orb_true_r.
Qed.

(** ** Closing twice (claim C1) *)


Lemma closed_if_fits_lookup t d sid s (ss : gmap string Session) :
  int4 d = true ->
  closed_if_fits t d sid s ss !! sid
  = Some (mkSession (user_id s) (login_at s) (Some t) (Some d)).
Proof. intros Hd. unfold closed_if_fits. rewrite Hd. apply lookup_insert_eq. Qed.

Lemma closed_if_fits_lookup_either t d sid s (ss : gmap string Session) :
  ss !! sid = Some s ->
  closed_if_fits t d sid s ss !! sid
  = Some (if int4 d then mkSession (user_id s) (login_at s) (Some t) (Some d) else s).
Proof.
  intros Hs. unfold closed_if_fits. destruct (int4 d); [apply lookup_insert_eq | done].
Qed.

Lemma closed_if_fits_lookup_refused t d sid s (ss : gmap string Session) :
  int4 d = false -> closed_if_fits t d sid s ss = ss.
Proof. intros Hd. unfold closed_if_fits. by rewrite Hd. Qed.

Lemma credited_if_fits_lookup t d uid (ps : gmap string Profile) :
  credited_if_fits t d uid ps !! uid
  = (fun p => if int4 (total_active_minutes p + d)
              then mkProfile (email p) (last_login_at p) (Some t)
                     (total_active_minutes p + d)
              else p) <$> ps !! uid.
Proof.
  unfold credited_if_fits. destruct (ps !! uid) as [p|] eqn:Hp; simpl.
  - destruct (int4 _); [apply lookup_insert_eq | done].
  - done.
Qed.

Lemma closed_if_fits_other t d sid s (ss : gmap string Session) other :
  other <> sid -> closed_if_fits t d sid s ss !! other = ss !! other.
Proof.
  intros Hne. unfold closed_if_fits. destruct (int4 d); [|done]. by apply lookup_insert_ne.
Qed.

Lemma credited_if_fits_other t d uid (ps : gmap string Profile) other :
  other <> uid -> credited_if_fits t d uid ps !! other = ps !! other.
Proof.
  intros Hne. unfold credited_if_fits. destruct (ps !! uid); [|done].
  destruct (int4 _); [|done]. by apply lookup_insert_ne.
Qed.




(** ** The stored duration (claim C3) *)

(** Both servers store [max(0, round(minutes))]. *)
Lemma logout_stores_clamped_duration castsToObjectId now caller sid db s :
  sid <> "" -> castsToObjectId sid = true ->
  sessions db !! sid = Some s -> user_id s = caller ->
  duration_minutes <$>
    sessions (AuthController.logout castsToObjectId now caller (Some sid) db).2 !! sid
  = Some (Some (Z.max 0 (round_minutes (now - login_at s)))).
Proof.
  intros Hne Hcast Hs Hown.
  destruct (logout_found castsToObjectId now caller sid db s Hne Hcast Hs Hown)
    as (_ & -> & _).
  by rewrite lookup_insert_eq.
Qed.

Lemma serve_stores_clamped_duration now m sid uid lo db s t :
  m <> "OPTIONS" -> sid <> "" -> uid <> "" ->
  sessions db !! sid = Some s ->
  default (ValidDate now) lo = ValidDate t ->
  int4 (Z.max 0 (round_minutes (t - login_at s))) = true ->
  duration_minutes <$>
    sessions (CloseSession.serve now
                (mkRequest m (Some (mkPayload (Some sid) (Some uid) lo))) db).2 !! sid
  = Some (Some (Z.max 0 (round_minutes (t - login_at s)))).
Proof.
  intros Hm Hsid Huid Hs Ht Hfit.
  destruct (serve_found now m sid uid lo db s t Hm Hsid Huid Hs Ht) as (_ & -> & _).
  by rewrite closed_if_fits_lookup.
Qed.

(** The client stores the rounded difference as it is. *)
Lemma closeSession_stores_rounded_duration now sid uid db s :
  sessions db !! sid = Some s ->
  int4 (round_minutes (now - login_at s)) = true ->
  duration_minutes <$> sessions (AuthContext.closeSession now sid uid db).2 !! sid
  = Some (Some (round_minutes (now - login_at s))).
Proof.
  intros Hs Hfit. destruct (closeSession_found now sid uid db s Hs) as (-> & _).
  by rewrite closed_if_fits_lookup.
Qed.

(** C3 fails on the client path: [closeSession] has no [Math.max(0, _)].
    Alice's session was opened at 00:10:00 by her clock; the clock is then
    set back and reads 00:08:00 when she logs out.  The client stores
    [duration_minutes = -2] where the claim (and both servers) give 0, and
    her total goes from 0 to -2. *)
Theorem closeSession_stores_negative_duration :
  let db' := (AuthContext.closeSession 480000 sid1 uid1 sample_db).2 in
  sessions db' !! sid1 = Some (mkSession uid1 600000 (Some 480000) (Some (-2)))
  /\ Z.max 0 (round_minutes (480000 - 600000)) = 0
  /\ profiles db' !! uid1 = Some (mkProfile "alice@example.org" None (Some 480000) (-2))
  /\ sessions (AuthController.logout is_hex24 480000 uid1 (Some sid1) sample_db).2 !! sid1
     = Some (mkSession uid1 600000 (Some 480000) (Some 0))
  /\ sessions (CloseSession.serve 0 (beacon sid1 uid1 480000) sample_db).2 !! sid1
     = Some (mkSession uid1 600000 (Some 480000) (Some 0)).
Proof. vm_compute. repeat split; reflexivity. Qed.

(** ** Authorization on the explicit-logout path (claim C4) *)

(** C4: when the session named in the request exists and belongs to someone
    other than the authenticated caller, [logout] answers 403 (not the 404
    of a missing session) and leaves both tables as they were; its only
    persistence call is the lookup of the session. *)
Theorem logout_of_foreign_session_is_forbidden
    (castsToObjectId : string -> bool) (now : Z) (caller sid : string)
    (db : Db) (s : Session) :
  sid <> "" -> castsToObjectId sid = true ->
  sessions db !! sid = Some s ->
  user_id s <> caller ->
  let r := AuthController.logout castsToObjectId now caller (Some sid) db in
  status r.1 = 403
  /\ status r.1 <> 404
  /\ body r.1 = Failure "Not authorized to access this session"
  /\ sessions r.2 = sessions db
  /\ profiles r.2 = profiles db
  /\ calls r.2 = SelectSession sid :: calls db.
Proof.
  intros Hne Hcast Hs Hown r. subst r.
  rewrite (logout_other_owner castsToObjectId now caller sid db s Hne Hcast Hs Hown).
  simpl. repeat split; done.
Qed.

Lemma logout_of_foreign_session_is_forbidden_sample :
  let r := AuthController.logout is_hex24 1020000 uid2 (Some sid1) sample_db in
  status r.1 = 403
  /\ status r.1 <> 404
  /\ body r.1 = Failure "Not authorized to access this session"
  /\ sessions r.2 = sessions sample_db
  /\ profiles r.2 = profiles sample_db
  /\ calls r.2 = SelectSession sid1 :: calls sample_db.
Proof.
  apply (logout_of_foreign_session_is_forbidden is_hex24 1020000 uid2 sid1 sample_db
           (mkSession uid1 600000 None None));
    first [discriminate | reflexivity].
Defined.

(** ** Unknown session ids (claim C5) *)

(** A close attempt for an id that names no session changes neither table:
    the client returns, the servers answer 404 provided the request passes
    their validation and, for the controller, the id casts to an [ObjectId]. *)
Lemma close_of_unknown_session_changes_nothing
    (castsToObjectId : string -> bool) (now : Z) (sid uid m : string)
    (lo : option DateString) (db : Db) :
  sessions db !! sid = None ->
  sid <> "" -> uid <> "" -> m <> "OPTIONS" -> castsToObjectId sid = true ->
  AuthContext.closeSession now sid uid db = (tt, log (SelectSession sid) db)
  /\ AuthController.logout castsToObjectId now uid (Some sid) db
     = (mkResponse 404 (Failure "Session not found"), log (SelectSession sid) db)
  /\ CloseSession.serve now (mkRequest m (Some (mkPayload (Some sid) (Some uid) lo))) db
     = (mkResponse 404 (Failure "Session not found"), log (SelectSession sid) db).
Proof.
  intros Hs Hsid Huid Hm Hcast. split; [|split].
  - by apply closeSession_not_found.
  - by apply logout_not_found.
  - by apply serve_not_found.
Qed.

(** C5 fails on the explicit-logout path for an id that is no [ObjectId]:
    [Session.findById] rejects, and the catch-all of [logout] answers 500
    "Server error during logout", where the claim has not-found.  (Nothing is
    written, as the claim says.) *)
Theorem logout_of_malformed_id_is_server_error (now : Z) (caller : string) (db : Db) :
  AuthController.logout is_hex24 now caller (Some "invalid-id") db
  = (mkResponse 500 (Failure "Server error during logout"), db).
Proof. apply logout_cast_error; [discriminate | reflexivity]. Qed.

(** ** The effect of a close on the profile (claim C6) *)




(** ** Validation on the beacon path (claim C8) *)

(** C8, as stated, fails for a body that is no JSON object (an empty body,
    text that does not parse, the literal null): such a request carries
    neither id, and it is answered 500, not 400.  (Nothing is read or
    written, as the claim says.) *)
Lemma beacon_with_unparsed_body_is_500 :
  let r := CloseSession.serve 1020000 (mkRequest "POST" None) sample_db in
  r.1 = mkResponse 500 (Failure "Internal server error")
  /\ status r.1 <> 400
  /\ r.2 = sample_db.
Proof. vm_compute. repeat split; [discriminate]. Qed.

(** C8, amended: a beacon request (any method but OPTIONS) whose body is a
    JSON object lacking [session_id] or [user_id] is answered 400, one whose
    body is no JSON object is answered 500; either way the store comes back
    as it was, its list of persistence calls included: nothing was read and
    nothing written. *)
Theorem beacon_without_ids_is_rejected (now : Z) (m : string) (db : Db) :
  m <> "OPTIONS" ->
  (forall p : Payload,
     truthy (session_id p) = false \/ truthy (payload_user_id p) = false ->
     let r := CloseSession.serve now (mkRequest m (Some p)) db in
     status r.1 = 400
     /\ body r.1 = Failure "Missing required fields"
     /\ sessions r.2 = sessions db
     /\ profiles r.2 = profiles db
     /\ calls r.2 = calls db)
  /\ (let r := CloseSession.serve now (mkRequest m None) db in
      status r.1 = 500
      /\ body r.1 = Failure "Internal server error"
      /\ sessions r.2 = sessions db
      /\ profiles r.2 = profiles db
      /\ calls r.2 = calls db).
Proof.
  intros Hm. split.
  - intros p Hmiss r. subst r. rewrite (serve_missing_fields now m p db Hm Hmiss).
    simpl. repeat split; done.
  - cbn zeta. unfold CloseSession.serve. cbn [method json].
    destruct (String.eqb_spec m "OPTIONS"); [done|]. simpl. repeat split; done.
Qed.

Lemma beacon_without_ids_is_rejected_sample :
  (let r := CloseSession.serve 1020000
              (mkRequest "POST" (Some (mkPayload (Some sid1) None (Some (ValidDate 1020000)))))
              sample_db in
   status r.1 = 400
   /\ body r.1 = Failure "Missing required fields"
   /\ sessions r.2 = sessions sample_db
   /\ profiles r.2 = profiles sample_db
   /\ calls r.2 = calls sample_db)
  /\ (let r := CloseSession.serve 1020000 (mkRequest "POST" None) sample_db in
      status r.1 = 500
      /\ body r.1 = Failure "Internal server error"
      /\ sessions r.2 = sessions sample_db
      /\ profiles r.2 = profiles sample_db
      /\ calls r.2 = calls sample_db).
Proof.
  destruct (beacon_without_ids_is_rejected 1020000 "POST" sample_db ltac:(discriminate))
    as [Hmissing Hunparsed].
  split.
  - apply (Hmissing (mkPayload (Some sid1) None (Some (ValidDate 1020000)))).
    right; reflexivity.
  - exact Hunparsed.
Defined.

(** ** Whom the beacon credits (claim C10) *)




(** ** Opening a session (claim C9) *)

Lemma createSession_opened new_id t_insert t_update uid db p :
  profiles db !! uid = Some p -> sessions db !! new_id = None ->
  let r := AuthContext.createSession new_id t_insert t_update uid db in
  r.1 = (if truthy (Some new_id) then Some new_id else None)
  /\ sessions r.2 = <[new_id := mkSession uid t_insert None None]> (sessions db)
  /\ profiles r.2 = <[uid := set_last_login t_update p]> (profiles db).
Proof.
  intros Hp Hfresh. unfold AuthContext.createSession. unfold_db.
  rewrite Hp, Hfresh. cbn -[truthy]. repeat split.
  by apply alter_lookup_Some.
Qed.

Lemma createSession_refused new_id t_insert t_update uid db :
  profiles db !! uid = None \/ is_Some (sessions db !! new_id) ->
  AuthContext.createSession new_id t_insert t_update uid db
  = (None, log (InsertSession new_id) db).
Proof.
  intros H. unfold AuthContext.createSession. unfold_db.
  destruct H as [-> | [s ->]]; [done|]. by destruct (profiles db !! uid).
Qed.

(** [User.findOne({ email })] finds the one document with that address. *)
Lemma User_findOne_unique e uid u db :
  profiles db !! uid = Some u -> email u = e ->
  (forall uid' u', profiles db !! uid' = Some u' -> email u' = e -> uid' = uid) ->
  AuthController.User_findOne e db = (Some (uid, u), log (FindProfile e) db).
Proof.
  intros Hu He Huniq. unfold AuthController.User_findOne. f_equal.
  set (l := filter _ _).
  assert (Hin : (uid, u) ∈ l).
  { apply list_elem_of_filter. split; [done|]. by apply elem_of_map_to_list. }
  destruct l as [|[k v] l'] eqn:Hl; [by apply elem_of_nil in Hin|].
  assert (Hkv : (k, v) ∈ l) by (rewrite Hl; left).
  apply list_elem_of_filter in Hkv as [Hev Hkv]. apply elem_of_map_to_list in Hkv.
  simpl in Hev. pose proof (Huniq k v Hkv Hev) as ->.
  simpl. congruence.
Qed.

Lemma login_opened comparePassword new_id t_user t_session e pw uid u db :
  e <> "" -> pw <> "" ->
  profiles db !! uid = Some u -> email u = e ->
  (forall uid' u', profiles db !! uid' = Some u' -> email u' = e -> uid' = uid) ->
  comparePassword uid pw = true ->
  let r := AuthController.login comparePassword new_id t_user t_session (Some e) (Some pw) db in
  r.1 = mkResponse 200 (LoggedIn new_id)
  /\ sessions r.2 = <[new_id := mkSession uid t_session None None]> (sessions db)
  /\ profiles r.2 = <[uid := set_last_login t_user u]> (profiles db).
Proof.
  intros He Hpw Hu Hem Huniq Hcmp. apply truthy_Some in He, Hpw.
  unfold AuthController.login. rewrite He, Hpw. cbn [negb orb]. unfold default. simpl.
  unfold bind at 1 4 7. rewrite (User_findOne_unique e uid u db Hu Hem Huniq).
  rewrite Hcmp. unfold_db. simpl. done.
Qed.

Lemma User_findOne_Some e uid u db :
  (AuthController.User_findOne e db).1 = Some (uid, u) ->
  profiles db !! uid = Some u /\ email u = e.
Proof.
  unfold AuthController.User_findOne. simpl. intros H.
  apply head_Some_elem_of in H. apply list_elem_of_filter in H as [He Hin].
  by apply elem_of_map_to_list in Hin.
Qed.

Lemma login_cases comparePassword new_id t_user t_session e pw db :
  let r := AuthController.login comparePassword new_id t_user t_session e pw db in
  (sessions r.2 = sessions db /\ profiles r.2 = profiles db /\ status r.1 <> 200)
  \/ (exists uid u,
        profiles db !! uid = Some u
        /\ Some (email u) = e
        /\ comparePassword uid (default "" pw) = true
        /\ r.1 = mkResponse 200 (LoggedIn new_id)
        /\ sessions r.2 = <[new_id := mkSession uid t_session None None]> (sessions db)
        /\ profiles r.2 = <[uid := set_last_login t_user u]> (profiles db)).
Proof.
  cbn zeta. unfold AuthController.login.
  destruct e as [e|]; [|left; by simpl].
  destruct (negb (truthy (Some e)) || negb (truthy pw)); [left; by simpl|].
  change (default "" (Some e)) with e. unfold bind.
  destruct (AuthController.User_findOne e db) as [found db1] eqn:Hf.
  assert (Hdb1 : db1 = log (FindProfile e) db) by (by inversion Hf).
  destruct found as [[uid u]|]; [|left; subst db1; by simpl].
  assert (Hu : profiles db !! uid = Some u /\ email u = e).
  { apply User_findOne_Some. by rewrite Hf. }
  destruct Hu as [Hu He].
  destruct (comparePassword uid (default "" pw)) eqn:Hcmp;
    [|left; subst db1; unfold ret; by simpl].
  right. exists uid, u. subst db1. unfold_db. simpl. rewrite He. by repeat split.
Qed.

Lemma createSession_cases new_id t_insert t_update uid db :
  let r := AuthContext.createSession new_id t_insert t_update uid db in
  (r.1 = None /\ sessions r.2 = sessions db /\ profiles r.2 = profiles db
   /\ (profiles db !! uid = None \/ is_Some (sessions db !! new_id)))
  \/ (exists p,
        profiles db !! uid = Some p
        /\ sessions db !! new_id = None
        /\ r.1 = (if truthy (Some new_id) then Some new_id else None)
        /\ sessions r.2 = <[new_id := mkSession uid t_insert None None]> (sessions db)
        /\ profiles r.2 = <[uid := set_last_login t_update p]> (profiles db)).
Proof.
  cbn zeta. destruct (profiles db !! uid) as [p|] eqn:Hp.
  - destruct (sessions db !! new_id) as [s|] eqn:Hs.
    + left. rewrite createSession_refused by (right; rewrite Hs; eauto). simpl.
      repeat split. right. eauto.
    + right. exists p.
      destruct (createSession_opened new_id t_insert t_update uid db p Hp Hs)
        as (? & ? & ?).
      by repeat split.
  - left. rewrite createSession_refused by (by left). simpl. repeat split. by left.
Qed.

Lemma only_last_login_set_insert uid t p db db' :
  profiles db !! uid = Some p ->
  profiles db' = <[uid := set_last_login t p]> (profiles db) ->
  only_last_login_set uid t db db'.
Proof.
  intros Hp Hps. unfold only_last_login_set. rewrite Hps, lookup_insert_eq, Hp. simpl.
  repeat split. intros other Hne. by apply lookup_insert_ne.
Qed.

Lemma keeps_totals_and_logouts_refl ps : keeps_totals_and_logouts ps ps.
Proof. intros k p Hk. by exists p. Qed.

Lemma keeps_totals_and_logouts_set_last_login uid t p (ps : gmap string Profile) :
  ps !! uid = Some p ->
  keeps_totals_and_logouts ps (<[uid := set_last_login t p]> ps).
Proof.
  intros Hp k q Hk. destruct (decide (k = uid)) as [->|Hne].
  - rewrite lookup_insert_eq. assert (q = p) as -> by congruence.
    by exists (set_last_login t p).
  - rewrite lookup_insert_ne by done. by exists q.
Qed.

(** C9: opening a session (the client's [createSession], the controller's
    [login]) only touches [last_login_at].  Whatever the arguments and the
    store, after either of them every profile is still there with the
    [total_active_minutes], [last_logout_at] and [email] it had.  When
    [createSession] is called for a user with a profile and given an unused
    key, it inserts the session row, open, and sets [last_login_at] of that
    profile to the clock reading taken for it, no other profile changing;
    [login] does the same for the one user with the address given, when
    address and password are not empty and the password compares equal. *)
Theorem open_touches_only_last_login
    (comparePassword : string -> string -> bool) (db : Db) (new_id : string) (t1 t2 : Z) :
  (forall uid,
     keeps_totals_and_logouts (profiles db)
       (profiles (AuthContext.createSession new_id t1 t2 uid db).2))
  /\ (forall uid p,
        profiles db !! uid = Some p ->
        sessions db !! new_id = None ->
        let created := (AuthContext.createSession new_id t1 t2 uid db).2 in
        sessions created !! new_id = Some (mkSession uid t1 None None)
        /\ only_last_login_set uid t2 db created)
  /\ (forall e pw,
        keeps_totals_and_logouts (profiles db)
          (profiles (AuthController.login comparePassword new_id t1 t2 e pw db).2))
  /\ (forall uid p e pw,
        profiles db !! uid = Some p ->
        e <> "" -> pw <> "" -> email p = e ->
        (forall uid' u', profiles db !! uid' = Some u' -> email u' = e -> uid' = uid) ->
        comparePassword uid pw = true ->
        let logged_in :=
          (AuthController.login comparePassword new_id t1 t2 (Some e) (Some pw) db).2 in
        sessions logged_in !! new_id = Some (mkSession uid t2 None None)
        /\ only_last_login_set uid t1 db logged_in).
Proof.
  split; [|split; [|split]].
  - intros uid.
    destruct (createSession_cases new_id t1 t2 uid db)
      as [(_ & _ & -> & _) | (p & Hp & _ & _ & _ & ->)].
    + apply keeps_totals_and_logouts_refl.
    + by apply keeps_totals_and_logouts_set_last_login.
  - intros uid p Hp Hfresh created.
    destruct (createSession_opened new_id t1 t2 uid db p Hp Hfresh) as (_ & Hs & Hps).
    fold created in Hs, Hps. split.
    + rewrite Hs. apply lookup_insert_eq.
    + by apply (only_last_login_set_insert uid t2 p).
  - intros e pw.
    destruct (login_cases comparePassword new_id t1 t2 e pw db)
      as [(_ & -> & _) | (uid & u & Hu & _ & _ & _ & _ & ->)].
    + apply keeps_totals_and_logouts_refl.
    + by apply keeps_totals_and_logouts_set_last_login.
  - intros uid p e pw Hp He Hpw Hem Huniq Hcmp logged_in.
    destruct (login_opened comparePassword new_id t1 t2 e pw uid p db
                He Hpw Hp Hem Huniq Hcmp) as (_ & Hs & Hps).
    fold logged_in in Hs, Hps. split.
    + rewrite Hs. apply lookup_insert_eq.
    + by apply (only_last_login_set_insert uid t1 p).
Qed.

Lemma open_touches_only_last_login_sample :
  let created := (AuthContext.createSession sid1 600000 600001 uid1 fresh_db).2 in
  let logged_in :=
    (AuthController.login (fun _ pw => String.eqb pw "correct horse") sid1 600000 600001
       (Some "alice@example.org") (Some "correct horse") fresh_db).2 in
  (sessions created !! sid1 = Some (mkSession uid1 600000 None None)
   /\ only_last_login_set uid1 600001 fresh_db created)
  /\ (sessions logged_in !! sid1 = Some (mkSession uid1 600001 None None)
      /\ only_last_login_set uid1 600000 fresh_db logged_in).
Proof.
  destruct (open_touches_only_last_login (fun _ pw => String.eqb pw "correct horse")
              fresh_db sid1 600000 600001) as (_ & Hcreate & _ & Hlogin).
  split.
  - by apply (Hcreate uid1 alice).
  - apply (Hlogin uid1 alice "alice@example.org" "correct horse");
      try first [discriminate | reflexivity].
    intros uid' u' Hu' He'. simpl in Hu'.
    destruct (decide (uid' = uid1)) as [|Hne1]; [assumption|].
    rewrite lookup_insert_ne in Hu' by congruence.
    destruct (decide (uid' = uid2)) as [->|Hne2].
    + rewrite lookup_singleton_eq in Hu'. inversion Hu'; subst u'. discriminate He'.
    + rewrite lookup_singleton_ne in Hu' by congruence. discriminate Hu'.
Defined.

(** ** Reusing the cached session id (claim C2) *)

(** At start-up a cached session id is reused: no row is inserted, nothing
    is written, and the cache stays as it is. *)
Lemma getSession_then_reuses_cached new_id t_insert t_update uid c db :
  truthy (AuthContext.getItem "learning_session_id" c) = true ->
  let r := AuthContext.getSession_then new_id t_insert t_update (Some uid) c db in
  sessions r.2 = sessions db
  /\ profiles r.2 = profiles db
  /\ AuthContext.currentSessionId r.1 = AuthContext.getItem "learning_session_id" c
  /\ AuthContext.sessionStorage r.1 = AuthContext.sessionStorage c.
Proof.
  intros Hc. unfold AuthContext.getSession_then, AuthContext.fetchProfile.
  unfold_db. simpl.
  unfold AuthContext.getItem in *. simpl. rewrite Hc. simpl. done.
Qed.

(** C2 fails on the sign-in path: the [SIGNED_IN] branch of the listener
    never reads the cache.  Alice's tab holds [sid1] in [sessionStorage] and
    the listener receives [SIGNED_IN] for her: a second row [sid2] is
    inserted, [sid1] stays open, and the cached id is replaced by [sid2]. *)
Theorem signed_in_with_cached_id_opens_another :
  let r := AuthContext.onAuthStateChange sid2 1020000 1020001
             AuthContext.SIGNED_IN (Some uid1) sample_client sample_db in
  AuthContext.getItem "learning_session_id" sample_client = Some sid1
  /\ sessions sample_db !! sid1 = Some (mkSession uid1 600000 None None)
  /\ sessions r.2 !! sid1 = Some (mkSession uid1 600000 None None)
  /\ sessions r.2 !! sid2 = Some (mkSession uid1 1020000 None None)
  /\ size (sessions sample_db) = 1%nat
  /\ size (sessions r.2) = 2%nat
  /\ AuthContext.currentSessionId r.1 = Some sid2
  /\ AuthContext.getItem "learning_session_id" r.1 = Some sid2.
Proof. vm_compute. repeat split; reflexivity. Qed.

(** ** [logout_at] and [duration_minutes] go together (claim C7) *)

Lemma paired_open uid t : paired (mkSession uid t None None).
Proof. unfold paired. simpl. tauto. Qed.

Lemma paired_set_logout t d s : paired (set_logout t d s).
Proof. unfold paired. simpl. split; discriminate. Qed.

Lemma map_Forall_paired_insert (m : gmap string Session) k s :
  paired s ->
  map_Forall (fun _ s => paired s) m ->
  map_Forall (fun _ s => paired s) (<[k := s]> m).
Proof. intros Hs Hm. by apply map_Forall_insert_2. Qed.

Lemma map_Forall_paired_alter (m : gmap string Session) k t d :
  map_Forall (fun _ s => paired s) m ->
  map_Forall (fun _ s => paired s) (alter (set_logout t d) k m).
Proof.
  intros Hm k' s'. destruct (decide (k = k')) as [<-|Hne].
  - rewrite lookup_alter_eq. destruct (m !! k); simpl; [|done].
    intros [= <-]. apply paired_set_logout.
  - rewrite lookup_alter_ne by done. apply Hm.
Qed.

Lemma preserves_ret {A} (I : Db -> Prop) (a : A) : preserves I (ret a).
Proof. intros db Hdb. exact Hdb. Qed.

Lemma preserves_bind {A B} (I : Db -> Prop) (m : M A) (k : A -> M B) :
  preserves I m -> (forall a, preserves I (k a)) -> preserves I (bind m k).
Proof.
  intros Hm Hk db Hdb. unfold bind. specialize (Hm db Hdb).
  destruct (m db) as [a db']. by apply Hk.
Qed.

(** A call that leaves the session table alone keeps [all_paired]. *)
Lemma preserves_same_sessions {A} (m : M A) :
  (forall db, sessions (m db).2 = sessions db) -> preserves all_paired m.
Proof. intros H db Hdb. unfold all_paired. by rewrite H. Qed.

Lemma insert_session_paired id uid t : preserves all_paired (Supabase.insert_session id uid t).
Proof.
  intros db Hdb. unfold Supabase.insert_session.
  destruct (profiles db !! uid), (sessions db !! id); try exact Hdb.
  apply map_Forall_paired_insert; [apply paired_open | exact Hdb].
Qed.

Lemma update_session_paired id t d : preserves all_paired (Supabase.update_session id t d).
Proof.
  intros db Hdb. unfold Supabase.update_session.
  destruct (int4 d); [by apply map_Forall_paired_alter | exact Hdb].
Qed.

Lemma update_last_logout_paired id t total :
  preserves all_paired (Supabase.update_last_logout id t total).
Proof.
  intros db Hdb. unfold Supabase.update_last_logout. by destruct (int4 total).
Qed.

Lemma Session_create_paired id uid t :
  preserves all_paired (AuthController.Session_create id uid t).
Proof.
  intros db Hdb. apply map_Forall_paired_insert; [apply paired_open | exact Hdb].
Qed.

Lemma Session_save_paired id t d s :
  preserves all_paired (AuthController.Session_save id (set_logout t d s)).
Proof.
  intros db Hdb. apply map_Forall_paired_insert; [apply paired_set_logout | exact Hdb].
Qed.

Create HintDb paired.
#[local] Hint Resolve insert_session_paired update_session_paired
  update_last_logout_paired Session_create_paired Session_save_paired : paired.

Ltac preserves_step :=
  first
    [ apply preserves_ret
    | apply preserves_bind; [|intros ?]
    | solve [auto with paired]
    | solve [apply preserves_same_sessions; intros ?; reflexivity]
    | case_match ].

Lemma createSession_paired new_id t1 t2 uid :
  preserves all_paired (AuthContext.createSession new_id t1 t2 uid).
Proof. unfold AuthContext.createSession. repeat preserves_step. Qed.

Lemma closeSession_paired now sid uid :
  preserves all_paired (AuthContext.closeSession now sid uid).
Proof. unfold AuthContext.closeSession. repeat preserves_step. Qed.

Lemma serve_paired now req : preserves all_paired (CloseSession.serve now req).
Proof. unfold CloseSession.serve. repeat preserves_step. Qed.

Section LifecycleFacts.

Variable castsToObjectId : string -> bool.
Variable comparePassword : string -> string -> bool.

Lemma login_paired new_id t1 t2 e pw :
  preserves all_paired (AuthController.login comparePassword new_id t1 t2 e pw).
Proof. unfold AuthController.login. repeat preserves_step. Qed.

Lemma logout_paired now caller sessionId :
  preserves all_paired (AuthController.logout castsToObjectId now caller sessionId).
Proof.
  unfold AuthController.logout. repeat preserves_step.
  unfold AuthController.Session_findById.
  intros db Hdb. by destruct (castsToObjectId _).
Qed.

Lemma step_keeps_paired op db :
  all_paired db -> all_paired (step castsToObjectId comparePassword op db).
Proof.
  destruct op; simpl.
  - apply createSession_paired.
  - apply closeSession_paired.
  - apply login_paired.
  - apply logout_paired.
  - apply serve_paired.
Qed.

Lemma reachable_all_paired db :
  reachable castsToObjectId comparePassword db -> all_paired db.
Proof.
  induction 1 as [db Hempty | db op _ IH].
  - unfold all_paired. rewrite Hempty. apply map_Forall_empty.
  - by apply step_keeps_paired.
Qed.

End LifecycleFacts.

(** C7: in every store the lifecycle operations produce from one without
    sessions (opens and closes on any of the paths, in any order and with any
    arguments), each session has [logout_at] null exactly when
    [duration_minutes] is null. *)
Theorem logout_at_null_iff_duration_null
    (castsToObjectId : string -> bool) (comparePassword : string -> string -> bool)
    (db : Db) (sid : string) (s : Session) :
  reachable castsToObjectId comparePassword db ->
  sessions db !! sid = Some s ->
  logout_at s = None <-> duration_minutes s = None.
Proof.
  intros Hreach Hs.
  exact (reachable_all_paired castsToObjectId comparePassword db Hreach sid s Hs).
Qed.

Lemma logout_at_null_iff_duration_null_sample :
  sessions sample_closed_db !! sid1 = Some (mkSession uid1 600000 (Some 1020000) (Some 7))
  /\ (logout_at (mkSession uid1 600000 (Some 1020000) (Some 7)) = None
      <-> duration_minutes (mkSession uid1 600000 (Some 1020000) (Some 7)) = None).
Proof.
  split; [reflexivity|].
  apply (logout_at_null_iff_duration_null is_hex24 (fun _ _ => true) sample_closed_db sid1).
  - exact (reachable_step _ _ _ (Logout 1020000 uid1 (Some sid1))
             (reachable_step _ _ _ (CreateSession sid1 600000 600001 uid1)
                (reachable_init _ _ fresh_db eq_refl))).
  - reflexivity.
Defined.

(** ** From the cache to the beacon *)

(** What [handleBeforeUnload] sends passes the validation of the edge
    function: both ids are present. *)
Lemma handleBeforeUnload_payload_has_ids now c p :
  AuthContext.handleBeforeUnload now c = Some p ->
  truthy (session_id p) = true /\ truthy (payload_user_id p) = true
  /\ payload_logout_at p = Some (ValidDate now).
Proof.
  unfold AuthContext.handleBeforeUnload.
  destruct (truthy (AuthContext.getItem "learning_session_id" c)) eqn:Hs;
    destruct (truthy (AuthContext.getItem "user_id" c)) eqn:Hu;
    simpl; intros [= <-]; simpl; auto.
Qed.

(** The scenario of the specification: Alice signs in at 00:10:00 and closes
    the tab seven minutes later (the beacon closes [sid1], total 7); she
    signs in again at 01:00:00 and logs out three minutes later (the client
    closes [sid2], total 10). *)
Example two_sessions_scenario :
  let db1 := (AuthContext.createSession sid1 600000 600001 uid1 fresh_db).2 in
  let db2 := (CloseSession.serve 1020005 (beacon sid1 uid1 1020000) db1).2 in
  let db3 := (AuthContext.createSession sid2 3600000 3600001 uid1 db2).2 in
  let db4 := (AuthContext.closeSession 3780000 sid2 uid1 db3).2 in
  sessions db2 !! sid1 = Some (mkSession uid1 600000 (Some 1020000) (Some 7))
  /\ total_active_minutes <$> profiles db2 !! uid1 = Some 7
  /\ sessions db4 !! sid2 = Some (mkSession uid1 3600000 (Some 3780000) (Some 3))
  /\ profiles db4 !! uid1
     = Some (mkProfile "alice@example.org" (Some 3600001) (Some 3780000) 10).
Proof. vm_compute. repeat split; reflexivity. Qed.

(** * Further properties of the lifecycle code *)

(** ** Every outcome of the three server functions *)

Lemma serve_untouched now req db :
  String.eqb (method req) "OPTIONS" = true
  \/ json req = None
  \/ (exists p, json req = Some p
                /\ (truthy (session_id p) = false \/ truthy (payload_user_id p) = false)) ->
  (CloseSession.serve now req db).2 = db.
Proof.
  unfold CloseSession.serve. intros [-> | [-> | (p & -> & Hp)]]; [done| |].
  - by destruct (String.eqb _ _).
  - destruct (String.eqb _ _); [done|].
    destruct Hp as [-> | ->]; [done|]. by rewrite orb_true_r.
Qed.

(** Either [serve] wrote nothing and did not answer [Closed], or it closed
    the session its payload names, as [serve_found] says. *)
Lemma serve_cases now req db :
  let r := CloseSession.serve now req db in
  (sessions r.2 = sessions db /\ profiles r.2 = profiles db
   /\ forall d, body r.1 <> Closed d)
  \/ (exists sid uid s t,
        session_id <$> json req = Some (Some sid)
        /\ payload_user_id <$> json req = Some (Some uid)
        /\ sessions db !! sid = Some s
        /\ default (ValidDate now) (mjoin (payload_logout_at <$> json req)) = ValidDate t
        /\ r.1 = mkResponse 200 (Closed (Z.max 0 (round_minutes (t - login_at s))))
        /\ sessions r.2
           = closed_if_fits t (Z.max 0 (round_minutes (t - login_at s))) sid s (sessions db)
        /\ profiles r.2
           = credited_if_fits t (Z.max 0 (round_minutes (t - login_at s))) uid (profiles db)).
Proof.
  destruct req as [m [[osid ouid lo]|]]; cbn zeta.
  2:{ left. rewrite serve_untouched by (right; by left).
      unfold CloseSession.serve. simpl. by destruct (String.eqb m "OPTIONS"). }
  destruct (String.eqb m "OPTIONS") eqn:Hm.
  { left. rewrite serve_untouched by (by left).
    unfold CloseSession.serve. simpl. by rewrite Hm. }
  apply String.eqb_neq in Hm.
  destruct (truthy osid) eqn:Hsid, (truthy ouid) eqn:Huid;
    try (left; rewrite serve_missing_fields by (simpl; auto); by simpl).
  destruct osid as [sid|], ouid as [uid|]; try discriminate.
  apply truthy_Some in Hsid, Huid.
  destruct (sessions db !! sid) as [s|] eqn:Hs.
  2:{ left. rewrite serve_not_found by done. by simpl. }
  destruct (default (ValidDate now) lo) as [t|] eqn:Ht.
  - right. exists sid, uid, s, t.
    destruct (serve_found now m sid uid lo db s t Hm Hsid Huid Hs Ht) as (? & ? & ?).
    by repeat split.
  - left. destruct lo as [[|]|]; try discriminate.
    rewrite (serve_invalid_logout_at now m sid uid db s) by done. by simpl.
Qed.

Lemma logout_cases castsToObjectId now caller sessionId db :
  let r := AuthController.logout castsToObjectId now caller sessionId db in
  (sessions r.2 = sessions db /\ profiles r.2 = profiles db /\ status r.1 <> 200)
  \/ (exists sid s,
        sessionId = Some sid
        /\ sessions db !! sid = Some s
        /\ user_id s = caller
        /\ r.1 = mkResponse 200 (LoggedOut (Z.max 0 (round_minutes (now - login_at s))))
        /\ sessions r.2
           = <[sid := set_logout now (Z.max 0 (round_minutes (now - login_at s))) s]>
               (sessions db)
        /\ profiles r.2
           = credited now (Z.max 0 (round_minutes (now - login_at s))) caller (profiles db)).
Proof.
  cbn zeta. destruct (truthy sessionId) eqn:Hsid.
  2:{ left. by rewrite logout_missing_id. }
  destruct sessionId as [sid|]; [|discriminate]. apply truthy_Some in Hsid.
  destruct (castsToObjectId sid) eqn:Hcast.
  2:{ left. by rewrite logout_cast_error. }
  destruct (sessions db !! sid) as [s|] eqn:Hs.
  2:{ left. by rewrite logout_not_found. }
  destruct (decide (user_id s = caller)) as [Hown|Hown].
  - right. exists sid, s.
    destruct (logout_found castsToObjectId now caller sid db s Hsid Hcast Hs Hown)
      as (? & ? & ?).
    by repeat split.
  - left. by rewrite (logout_other_owner castsToObjectId now caller sid db s).
Qed.

(** ** Every outcome of the two client functions *)

Lemma closeSession_cases now sid uid db :
  let db' := (AuthContext.closeSession now sid uid db).2 in
  (sessions db !! sid = None /\ sessions db' = sessions db /\ profiles db' = profiles db)
  \/ (exists s,
        sessions db !! sid = Some s
        /\ sessions db' = closed_if_fits now (round_minutes (now - login_at s)) sid s (sessions db)
        /\ profiles db' = credited_if_fits now (round_minutes (now - login_at s)) uid (profiles db)).
Proof.
  cbn zeta. destruct (sessions db !! sid) as [s|] eqn:Hs.
  - right. exists s. destruct (closeSession_found now sid uid db s Hs) as (? & ?).
    by repeat split.
  - left. by rewrite closeSession_not_found.
Qed.

(** ** What no operation does to the profiles *)

Lemma credited_lookup t d uid ps other :
  credited t d uid ps !! other
  = if decide (other = uid)
    then (fun p => set_last_logout t (total_active_minutes p + d) p) <$> ps !! uid
    else ps !! other.
Proof.
  unfold credited. destruct (decide (other = uid)) as [->|Hne].
  - destruct (ps !! uid) as [p|] eqn:Hp; simpl.
    + by rewrite lookup_insert_eq.
    + by rewrite Hp.
  - destruct (ps !! uid); [|done]. by rewrite lookup_insert_ne.
Qed.

Lemma set_last_login_lookup t uid p (ps : gmap string Profile) other :
  ps !! uid = Some p ->
  <[uid := set_last_login t p]> ps !! other
  = if decide (other = uid) then Some (set_last_login t p) else ps !! other.
Proof.
  intros Hp. destruct (decide (other = uid)) as [->|Hne].
  - by rewrite lookup_insert_eq.
  - by rewrite lookup_insert_ne.
Qed.

Lemma credited_if_fits_cases t d uid (ps : gmap string Profile) :
  credited_if_fits t d uid ps = ps \/ credited_if_fits t d uid ps = credited t d uid ps.
Proof.
  unfold credited_if_fits, credited. destruct (ps !! uid); [|by left].
  destruct (int4 _); [by right | by left].
Qed.

Lemma closed_if_fits_cases t d sid s (ss : gmap string Session) :
  closed_if_fits t d sid s ss = ss
  \/ closed_if_fits t d sid s ss = <[sid := set_logout t d s]> ss.
Proof. unfold closed_if_fits. destruct (int4 d); [by right | by left]. Qed.

(** The profile table an operation leaves: the one before, or one row
    credited, or one row with a new [last_login_at]. *)
Lemma step_profiles castsToObjectId comparePassword op db :
  let ps' := profiles (step castsToObjectId comparePassword op db) in
  ps' = profiles db
  \/ (exists t d uid, (d < 0 -> exists n s u, op = CloseSessionClient n s u)
                      /\ ps' = credited t d uid (profiles db))
  \/ (exists t uid p, profiles db !! uid = Some p
                      /\ ps' = <[uid := set_last_login t p]> (profiles db)).
Proof.
  cbn zeta. destruct op as [nid t1 t2 uid | now sid uid | nid t1 t2 e pw | now caller osid | now req];
    simpl.
  - destruct (createSession_cases nid t1 t2 uid db) as [(_ & _ & -> & _) | (p & Hp & _ & _ & _ & ->)].
    + by left.
    + right; right. by exists t2, uid, p.
  - destruct (closeSession_cases now sid uid db) as [(_ & _ & ->) | (s & _ & _ & ->)].
    + by left.
    + destruct (credited_if_fits_cases now (round_minutes (now - login_at s)) uid (profiles db))
        as [-> | ->]; [by left|].
      right; left. eexists _, _, _. split; [|done]. intros _. by exists now, sid, uid.
  - destruct (login_cases comparePassword nid t1 t2 e pw db)
      as [(_ & -> & _) | (uid & u & Hu & _ & _ & _ & _ & ->)].
    + by left.
    + right; right. by exists t1, uid, u.
  - destruct (logout_cases castsToObjectId now caller osid db)
      as [(_ & -> & _) | (sid & s & _ & _ & _ & _ & _ & ->)].
    + by left.
    + right; left. eexists _, _, _. split; [|done]. lia.
  - destruct (serve_cases now req db)
      as [(_ & -> & _) | (sid & uid & s & t & _ & _ & _ & _ & _ & _ & ->)].
    + by left.
    + destruct (credited_if_fits_cases t (Z.max 0 (round_minutes (t - login_at s))) uid
                  (profiles db)) as [-> | ->]; [by left|].
      right; left. eexists _, _, _. split; [|done]. lia.
Qed.

(** X1: no lifecycle operation creates or deletes a profile, and none
    changes an e-mail address: after any operation on any store the profile
    table has the same keys, and each profile the address it had. *)
Theorem profiles_are_neither_created_nor_deleted
    (castsToObjectId : string -> bool) (comparePassword : string -> string -> bool)
    (op : Op) (db : Db) :
  dom (profiles (step castsToObjectId comparePassword op db)) = dom (profiles db)
  /\ (forall uid p p',
        profiles db !! uid = Some p ->
        profiles (step castsToObjectId comparePassword op db) !! uid = Some p' ->
        email p' = email p).
Proof.
  destruct (step_profiles castsToObjectId comparePassword op db)
    as [-> | [(t & d & uid & _ & ->) | (t & uid & p0 & Hp0 & ->)]].
  - split; [done|]. intros uid p p' H1 H2. congruence.
  - split.
    + apply set_eq. intros k. rewrite !elem_of_dom, credited_lookup.
      destruct (decide (k = uid)) as [->|]; [|done].
      destruct (profiles db !! uid); simpl; split; intros [? ?]; eauto; done.
    + intros k p p' H1. rewrite credited_lookup.
      destruct (decide (k = uid)) as [->|]; [|congruence].
      rewrite H1. simpl. by intros [= <-].
  - split.
    + apply set_eq. intros k. rewrite !elem_of_dom, (set_last_login_lookup _ _ _ _ _ Hp0).
      destruct (decide (k = uid)) as [->|]; [|done].
      rewrite Hp0. split; eauto.
    + intros k p p' H1. rewrite (set_last_login_lookup _ _ _ _ _ Hp0).
      destruct (decide (k = uid)) as [->|]; [|congruence].
      intros [= <-]. simpl. congruence.
Qed.

(** X2: the four operations other than the client's [closeSession] (the
    client's [createSession], and [login], [logout] and the edge function on
    the servers) never lower a total: every profile is still there afterwards,
    with [total_active_minutes] at least what it was. *)
Theorem totals_never_decrease_outside_client_close
    (castsToObjectId : string -> bool) (comparePassword : string -> string -> bool)
    (db : Db) (new_id userId caller : string) (t1 t2 now : Z)
    (e pw sessionId : option string) (req : Request) :
  totals_nondecreasing db (AuthContext.createSession new_id t1 t2 userId db).2
  /\ totals_nondecreasing db (AuthController.login comparePassword new_id t1 t2 e pw db).2
  /\ totals_nondecreasing db (AuthController.logout castsToObjectId now caller sessionId db).2
  /\ totals_nondecreasing db (CloseSession.serve now req db).2.
Proof.
  assert (Hstep : forall op, (forall n s u, op <> CloseSessionClient n s u) ->
            totals_nondecreasing db (step castsToObjectId comparePassword op db)).
  { intros op Hop uid p Hp.
    destruct (step_profiles castsToObjectId comparePassword op db)
      as [-> | [(t & d & k & Hd & ->) | (t & k & p0 & Hp0 & ->)]].
    - exists p. split; [done|lia].
    - rewrite credited_lookup. destruct (decide (uid = k)) as [->|]; [|exists p; split; [done|lia]].
      rewrite Hp. simpl. eexists. split; [done|]. simpl.
      assert (0 <= d); [|lia].
      destruct (Z.lt_ge_cases d 0) as [Hneg|]; [|done].
      destruct (Hd Hneg) as (n & s & u & ->). by destruct (Hop n s u).
    - rewrite (set_last_login_lookup _ _ _ _ _ Hp0).
      destruct (decide (uid = k)) as [->|]; [|exists p; split; [done|lia]].
      eexists. split; [done|]. simpl. assert (p = p0) by congruence. subst. lia. }
  repeat split.
  - apply (Hstep (CreateSession new_id t1 t2 userId)). discriminate.
  - apply (Hstep (Login new_id t1 t2 e pw)). discriminate.
  - apply (Hstep (Logout now caller sessionId)). discriminate.
  - apply (Hstep (Beacon now req)). discriminate.
Qed.

(** ** What no operation does to the sessions *)

(** The session table an operation leaves: the one before, or one row
    closed, or one open row more. *)
Lemma step_sessions castsToObjectId comparePassword op db :
  let ss' := sessions (step castsToObjectId comparePassword op db) in
  ss' = sessions db
  \/ (exists sid s t d, sessions db !! sid = Some s
                        /\ ss' = <[sid := set_logout t d s]> (sessions db))
  \/ (exists new_id uid t,
        (brings_fresh_key op db -> sessions db !! new_id = None)
        /\ ss' = <[new_id := mkSession uid t None None]> (sessions db)).
Proof.
  cbn zeta. destruct op as [nid t1 t2 uid | now sid uid | nid t1 t2 e pw | now caller osid | now req];
    simpl.
  - destruct (createSession_cases nid t1 t2 uid db) as [(_ & -> & _) | (p & _ & Hf & _ & -> & _)].
    + by left.
    + right; right. by exists nid, uid, t1.
  - destruct (closeSession_cases now sid uid db) as [(_ & -> & _) | (s & Hs & -> & _)].
    + by left.
    + destruct (closed_if_fits_cases now (round_minutes (now - login_at s)) sid s (sessions db))
        as [-> | ->]; [by left|].
      right; left. by eexists sid, s, _, _.
  - destruct (login_cases comparePassword nid t1 t2 e pw db)
      as [(-> & _) | (uid & u & _ & _ & _ & _ & -> & _)].
    + by left.
    + right; right. by exists nid, uid, t2.
  - destruct (logout_cases castsToObjectId now caller osid db)
      as [(-> & _) | (sid & s & _ & Hs & _ & _ & -> & _)].
    + by left.
    + right; left. by eexists sid, s, _, _.
  - destruct (serve_cases now req db)
      as [(-> & _) | (sid & uid & s & t & _ & _ & Hs & _ & _ & -> & _)].
    + by left.
    + destruct (closed_if_fits_cases t (Z.max 0 (round_minutes (t - login_at s))) sid s
                  (sessions db)) as [-> | ->]; [by left|].
      right; left. by eexists sid, s, _, _.
Qed.

(** X3: sessions are never deleted or reassigned, and a closed session stays
    closed.  For any operation (a [Login] bringing an unused key for its new
    document), a session of the store is still there afterwards, with the same
    [user_id] and [login_at], and with [logout_at] set if it was set. *)
Theorem sessions_are_kept
    (castsToObjectId : string -> bool) (comparePassword : string -> string -> bool)
    (op : Op) (db : Db) (sid : string) (s : Session) :
  brings_fresh_key op db ->
  sessions db !! sid = Some s ->
  session_kept sid s (step castsToObjectId comparePassword op db).
Proof.
  intros Hfresh Hs. unfold session_kept.
  destruct (step_sessions castsToObjectId comparePassword op db)
    as [-> | [(k & s0 & t & d & Hk & ->) | (k & uid & t & Hk & ->)]].
  - by exists s.
  - destruct (decide (k = sid)) as [->|Hne].
    + rewrite lookup_insert_eq. assert (s0 = s) by congruence. subst s0.
      eexists. split; [done|]. simpl. repeat split. done.
    + rewrite lookup_insert_ne by done. by exists s.
  - specialize (Hk Hfresh). destruct (decide (k = sid)) as [->|Hne]; [congruence|].
    rewrite lookup_insert_ne by done. by exists s.
Qed.

Lemma sessions_are_kept_sample :
  session_kept sid1 (mkSession uid1 600000 (Some 1020000) (Some 7))
    (step is_hex24 (fun _ _ => true)
       (Beacon 0 (beacon sid1 uid2 1080000)) sample_closed_db).
Proof.
  apply (sessions_are_kept is_hex24 (fun _ _ => true)
           (Beacon 0 (beacon sid1 uid2 1080000)) sample_closed_db sid1).
  - exact I.
  - reflexivity.
Defined.

(** ** What the answers of the servers tell *)

(** X4: whenever [logout] answers anything other than 200 (400 for a missing
    id, 500 for one that does not cast, 404, 403), neither table has changed. *)
Theorem logout_failure_writes_nothing
    (castsToObjectId : string -> bool) (now : Z) (caller : string)
    (sessionId : option string) (db : Db) :
  status (AuthController.logout castsToObjectId now caller sessionId db).1 <> 200 ->
  sessions (AuthController.logout castsToObjectId now caller sessionId db).2 = sessions db
  /\ profiles (AuthController.logout castsToObjectId now caller sessionId db).2 = profiles db.
Proof.
  intros Hst.
  destruct (logout_cases castsToObjectId now caller sessionId db)
    as [(? & ? & _) | (sid & s & _ & _ & _ & Hr & _)]; [done|].
  rewrite Hr in Hst. by destruct Hst.
Qed.

Lemma logout_failure_writes_nothing_sample :
  sessions (AuthController.logout is_hex24 1020000 uid1 (Some sid2) sample_db).2
  = sessions sample_db
  /\ profiles (AuthController.logout is_hex24 1020000 uid1 (Some sid2) sample_db).2
     = profiles sample_db.
Proof.
  apply (logout_failure_writes_nothing is_hex24 1020000 uid1 (Some sid2) sample_db).
  vm_compute. discriminate.
Defined.

(** X5: [logout] answers 200 only for a session that exists and belongs to
    the caller; the [durationMinutes] of the answer is then the duration
    stored on that session, it is not negative, and [logout_at] is the
    controller's clock reading. *)
Theorem logout_success_is_for_own_session
    (castsToObjectId : string -> bool) (now : Z) (caller : string)
    (sessionId : option string) (db : Db) :
  status (AuthController.logout castsToObjectId now caller sessionId db).1 = 200 ->
  exists sid s d,
    sessionId = Some sid
    /\ sessions db !! sid = Some s
    /\ user_id s = caller
    /\ 0 <= d
    /\ body (AuthController.logout castsToObjectId now caller sessionId db).1 = LoggedOut d
    /\ sessions (AuthController.logout castsToObjectId now caller sessionId db).2 !! sid
       = Some (mkSession caller (login_at s) (Some now) (Some d)).
Proof.
  intros Hst.
  destruct (logout_cases castsToObjectId now caller sessionId db)
    as [(_ & _ & Hne) | (sid & s & -> & Hs & Hown & Hr & Hss & _)]; [done|].
  exists sid, s, (Z.max 0 (round_minutes (now - login_at s))).
  rewrite Hr, Hss, lookup_insert_eq. unfold set_logout. rewrite Hown.
  repeat split; try done. lia.
Qed.

Lemma logout_success_is_for_own_session_sample :
  exists sid s d,
    Some sid1 = Some sid
    /\ sessions sample_db !! sid = Some s
    /\ user_id s = uid1
    /\ 0 <= d
    /\ body (AuthController.logout is_hex24 1020000 uid1 (Some sid1) sample_db).1 = LoggedOut d
    /\ sessions (AuthController.logout is_hex24 1020000 uid1 (Some sid1) sample_db).2 !! sid
       = Some (mkSession uid1 (login_at s) (Some 1020000) (Some d)).
Proof.
  apply (logout_success_is_for_own_session is_hex24 1020000 uid1 (Some sid1) sample_db).
  reflexivity.
Defined.

(** X6: unless the edge function answers with a closed duration (so for a
    preflight, a body that is no JSON object, a missing id, an unknown
    session, a [logout_at] that is no date), neither table has changed. *)
Theorem serve_failure_writes_nothing (now : Z) (req : Request) (db : Db) :
  (forall d, body (CloseSession.serve now req db).1 <> Closed d) ->
  sessions (CloseSession.serve now req db).2 = sessions db
  /\ profiles (CloseSession.serve now req db).2 = profiles db.
Proof.
  intros Hb.
  destruct (serve_cases now req db)
    as [(? & ? & _) | (sid & uid & s & t & _ & _ & _ & _ & Hr & _)]; [done|].
  rewrite Hr in Hb. exfalso. by eapply Hb.
Qed.

Lemma serve_failure_writes_nothing_sample :
  sessions (CloseSession.serve 0
              (mkRequest "POST" (Some (mkPayload (Some sid1) (Some uid1) (Some InvalidDate))))
              sample_db).2 = sessions sample_db
  /\ profiles (CloseSession.serve 0
                 (mkRequest "POST" (Some (mkPayload (Some sid1) (Some uid1) (Some InvalidDate))))
                 sample_db).2 = profiles sample_db.
Proof.
  apply (serve_failure_writes_nothing 0
           (mkRequest "POST" (Some (mkPayload (Some sid1) (Some uid1) (Some InvalidDate))))
           sample_db).
  intros d. vm_compute. discriminate.
Defined.



(** X8: a [login] that is not answered 200 (missing field, unknown address,
    wrong password) leaves both tables as they were: no session is created
    and [lastLoginAt] is not touched. *)
Theorem login_failure_writes_nothing
    (comparePassword : string -> string -> bool) (new_id : string)
    (t_user t_session : Z) (e pw : option string) (db : Db) :
  status (AuthController.login comparePassword new_id t_user t_session e pw db).1 <> 200 ->
  sessions (AuthController.login comparePassword new_id t_user t_session e pw db).2
  = sessions db
  /\ profiles (AuthController.login comparePassword new_id t_user t_session e pw db).2
     = profiles db.
Proof.
  intros Hst.
  destruct (login_cases comparePassword new_id t_user t_session e pw db)
    as [(? & ? & _) | (uid & u & _ & _ & _ & Hr & _)]; [done|].
  rewrite Hr in Hst. by destruct Hst.
Qed.

Lemma login_failure_writes_nothing_sample :
  sessions (AuthController.login (fun _ pw => String.eqb pw "correct horse") sid2 5 6
              (Some "alice@example.org") (Some "wrong") sample_db).2
  = sessions sample_db
  /\ profiles (AuthController.login (fun _ pw => String.eqb pw "correct horse") sid2 5 6
                 (Some "alice@example.org") (Some "wrong") sample_db).2
     = profiles sample_db.
Proof.
  apply (login_failure_writes_nothing (fun _ pw => String.eqb pw "correct horse") sid2 5 6
           (Some "alice@example.org") (Some "wrong") sample_db).
  vm_compute. discriminate.
Defined.



(** ** The accuracy of the stored duration *)



(** ** Calls in sequence *)

(** X11: the [sessionId] that [login] answers can be given back to [logout]
    by the same user: [logout] then answers 200 with the duration between the
    two clock readings (rounded, not negative), the session is closed, and
    the user's document holds the login time, the logout time and the total
    increased by that duration. *)
Theorem login_then_logout
    (castsToObjectId : string -> bool) (comparePassword : string -> string -> bool)
    (db : Db) (new_id uid e pw : string) (u : Profile) (t_user t_session now : Z) :
  e <> "" -> pw <> "" -> new_id <> "" ->
  castsToObjectId new_id = true ->
  profiles db !! uid = Some u -> email u = e ->
  (forall uid' u', profiles db !! uid' = Some u' -> email u' = e -> uid' = uid) ->
  comparePassword uid pw = true ->
  let r1 := AuthController.login comparePassword new_id t_user t_session (Some e) (Some pw) db in
  let r2 := AuthController.logout castsToObjectId now uid (sessionId_of r1.1) r1.2 in
  let d := Z.max 0 (round_minutes (now - t_session)) in
  r2.1 = mkResponse 200 (LoggedOut d)
  /\ sessions r2.2 !! new_id = Some (mkSession uid t_session (Some now) (Some d))
  /\ profiles r2.2 !! uid
     = Some (mkProfile e (Some t_user) (Some now) (total_active_minutes u + d)).
Proof.
  intros He Hpw Hid Hcast Hu Hem Huniq Hcmp r1 r2 d.
  destruct (login_opened comparePassword new_id t_user t_session e pw uid u db
              He Hpw Hu Hem Huniq Hcmp) as (Hr1 & Hs1 & Hp1).
  fold r1 in Hr1, Hs1, Hp1.
  assert (Hs1' : sessions r1.2 !! new_id = Some (mkSession uid t_session None None))
    by (rewrite Hs1; apply lookup_insert_eq).
  subst r2. rewrite Hr1. unfold sessionId_of. cbn [body].
  destruct (logout_found castsToObjectId now uid new_id r1.2 _ Hid Hcast Hs1' eq_refl)
    as (-> & -> & ->).
  cbn [login_at]. fold d. split; [done|]. split.
  - by rewrite lookup_insert_eq.
  - rewrite credited_lookup. destruct (decide (uid = uid)); [|done].
    rewrite Hp1, lookup_insert_eq. rewrite <- Hem. reflexivity.
Qed.

Lemma login_then_logout_sample :
  let r1 := AuthController.login (fun _ pw => String.eqb pw "correct horse") sid1
              600000 600001 (Some "alice@example.org") (Some "correct horse") fresh_db in
  let r2 := AuthController.logout is_hex24 1020000 uid1 (sessionId_of r1.1) r1.2 in
  r2.1 = mkResponse 200 (LoggedOut 7)
  /\ sessions r2.2 !! sid1 = Some (mkSession uid1 600001 (Some 1020000) (Some 7))
  /\ profiles r2.2 !! uid1
     = Some (mkProfile "alice@example.org" (Some 600000) (Some 1020000) 7).
Proof.
  apply (login_then_logout is_hex24 (fun _ pw => String.eqb pw "correct horse") fresh_db
           sid1 uid1 "alice@example.org" "correct horse" alice 600000 600001 1020000);
    try first [discriminate | reflexivity].
  intros uid' u' Hu' He'. simpl in Hu'.
  destruct (decide (uid' = uid1)) as [|Hne1]; [assumption|].
  rewrite lookup_insert_ne in Hu' by congruence.
  destruct (decide (uid' = uid2)) as [->|Hne2].
  - rewrite lookup_singleton_eq in Hu'. inversion Hu'; subst u'. discriminate He'.
  - rewrite lookup_singleton_ne in Hu' by congruence. discriminate Hu'.
Defined.

(** ** The browser side, call after call *)

Ltac unfold_client :=
  unfold AuthContext.onAuthStateChange, AuthContext.onSignedIn,
    AuthContext.getSession_then, AuthContext.fetchProfile,
    AuthContext.createSession, AuthContext.logout, AuthContext.handleBeforeUnload,
    AuthContext.getItem, AuthContext.setItem, AuthContext.removeItem,
    AuthContext.setUser, AuthContext.setProfile, AuthContext.setCurrentSessionId,
    AuthContext.setIsLoading in *.

Lemma signed_in_opened new_id t_insert t_update uid c db p :
  profiles db !! uid = Some p -> sessions db !! new_id = None -> new_id <> "" ->
  let r := AuthContext.onAuthStateChange new_id t_insert t_update
             AuthContext.SIGNED_IN (Some uid) c db in
  sessions r.2 = <[new_id := mkSession uid t_insert None None]> (sessions db)
  /\ profiles r.2 = <[uid := set_last_login t_update p]> (profiles db)
  /\ r.1 = AuthContext.mkClient (Some uid) (Some p) (Some new_id) (AuthContext.isLoading c)
             (<["user_id" := uid]>
                (<["learning_session_id" := new_id]> (AuthContext.sessionStorage c))).
Proof.
  intros Hp Hfresh Hid. apply truthy_Some in Hid. simpl in Hid.
  unfold_client. unfold_db. simpl. rewrite Hp, Hfresh. simpl. rewrite Hid. simpl.
  repeat split.
  - by apply alter_lookup_Some.
  - by rewrite Hid.
Qed.

(** X12: on the client, signing in and then logging out closes the session
    the sign-in opened.  When the rounded minutes between the two clock
    readings fit the INTEGER column, the row holds the two readings and those
    minutes; otherwise it is still the open row of the sign-in.  When the
    total increased by those minutes fits, the user's profile holds the new
    [last_login_at], [last_logout_at] and the increased total; otherwise only
    [last_login_at] is new. *)
Theorem sign_in_then_logout_on_the_client
    (db : Db) (c : AuthContext.Client) (new_id uid : string) (p : Profile)
    (t_insert t_update now : Z) :
  profiles db !! uid = Some p ->
  sessions db !! new_id = None ->
  new_id <> "" ->
  let r1 := AuthContext.onAuthStateChange new_id t_insert t_update
              AuthContext.SIGNED_IN (Some uid) c db in
  let db2 := (AuthContext.logout now r1.1 r1.2).2 in
  let d := round_minutes (now - t_insert) in
  sessions db2 !! new_id
  = Some (if int4 d
          then mkSession uid t_insert (Some now) (Some d)
          else mkSession uid t_insert None None)
  /\ profiles db2 !! uid
     = Some (if int4 (total_active_minutes p + d)
             then mkProfile (email p) (Some t_update) (Some now) (total_active_minutes p + d)
             else mkProfile (email p) (Some t_update) (last_logout_at p)
                    (total_active_minutes p)).
Proof.
  intros Hp Hfresh Hid r1 db2 d.
  destruct (signed_in_opened new_id t_insert t_update uid c db p Hp Hfresh Hid)
    as (Hs1 & Hp1 & Hc1).
  fold r1 in Hs1, Hp1, Hc1.
  assert (Hs1' : sessions r1.2 !! new_id = Some (mkSession uid t_insert None None))
    by (rewrite Hs1; apply lookup_insert_eq).
  assert (Hlog : AuthContext.logout now r1.1 r1.2
                 = AuthContext.closeSession now new_id uid r1.2).
  { rewrite Hc1. unfold AuthContext.logout. simpl.
    apply truthy_Some in Hid. simpl in Hid. by rewrite Hid. }
  subst db2. rewrite Hlog.
  destruct (closeSession_found now new_id uid r1.2 _ Hs1') as (-> & ->).
  cbn [login_at]. fold d. split.
  - by rewrite (closed_if_fits_lookup_either _ _ _ _ _ Hs1').
  - rewrite credited_if_fits_lookup, Hp1, lookup_insert_eq.
    cbn [fmap option_fmap option_map set_last_login total_active_minutes email last_login_at].
    by destruct (int4 _).
Qed.

Lemma sign_in_then_logout_on_the_client_sample :
  let r1 := AuthContext.onAuthStateChange sid1 600000 600001
              AuthContext.SIGNED_IN (Some uid1) (reloaded sample_client) fresh_db in
  let db2 := (AuthContext.logout 1020000 r1.1 r1.2).2 in
  sessions db2 !! sid1 = Some (mkSession uid1 600000 (Some 1020000) (Some 7))
  /\ profiles db2 !! uid1
     = Some (mkProfile "alice@example.org" (Some 600001) (Some 1020000) 7).
Proof.
  exact (sign_in_then_logout_on_the_client fresh_db (reloaded sample_client) sid1 uid1
           alice 600000 600001 1020000 eq_refl eq_refl ltac:(discriminate)).
Defined.

Lemma getSession_then_opened new_id t_insert t_update uid c db p :
  truthy (AuthContext.getItem "learning_session_id" c) = false ->
  profiles db !! uid = Some p -> sessions db !! new_id = None -> new_id <> "" ->
  let r := AuthContext.getSession_then new_id t_insert t_update (Some uid) c db in
  sessions r.2 = <[new_id := mkSession uid t_insert None None]> (sessions db)
  /\ profiles r.2 = <[uid := set_last_login t_update p]> (profiles db)
  /\ r.1 = AuthContext.mkClient (Some uid) (Some p) (Some new_id) false
             (<["user_id" := uid]>
                (<["learning_session_id" := new_id]> (AuthContext.sessionStorage c))).
Proof.
  intros Hc Hp Hfresh Hid. apply truthy_Some in Hid. simpl in Hid.
  unfold_client. unfold_db. cbn -[insert truthy]. cbn -[insert truthy] in Hc.
  rewrite Hc. unfold log, with_sessions, with_profiles. cbn [sessions profiles calls].
  rewrite Hp, Hfresh. cbn -[insert]. rewrite Hid. cbn -[insert].
  repeat split; first [done | by apply alter_lookup_Some | idtac].
  by rewrite Hid.
Qed.

(** X13: loading the page again in the same tab does not open a second
    session.  When the start-up check has opened a session and cached its
    id, the start-up check of the reloaded page (React state reset,
    [sessionStorage] kept) inserts no row, writes nothing, and takes the
    cached id as the current session. *)
Theorem reload_opens_no_second_session
    (db : Db) (c : AuthContext.Client) (new_id other_id uid : string) (p : Profile)
    (t1 t2 t3 t4 : Z) :
  truthy (AuthContext.getItem "learning_session_id" c) = false ->
  profiles db !! uid = Some p ->
  sessions db !! new_id = None ->
  new_id <> "" ->
  let r1 := AuthContext.getSession_then new_id t1 t2 (Some uid) c db in
  let r2 := AuthContext.getSession_then other_id t3 t4 (Some uid) (reloaded r1.1) r1.2 in
  sessions r1.2 = <[new_id := mkSession uid t1 None None]> (sessions db)
  /\ sessions r2.2 = sessions r1.2
  /\ profiles r2.2 = profiles r1.2
  /\ AuthContext.currentSessionId r2.1 = Some new_id
  /\ AuthContext.isLoading r2.1 = false.
Proof.
  intros Hc Hp Hfresh Hid r1 r2.
  destruct (getSession_then_opened new_id t1 t2 uid c db p Hc Hp Hfresh Hid)
    as (Hs1 & _ & Hc1).
  fold r1 in Hs1, Hc1. split; [done|].
  assert (Hget : AuthContext.getItem "learning_session_id" (reloaded r1.1) = Some new_id).
  { rewrite Hc1. unfold reloaded, AuthContext.getItem. cbn [AuthContext.sessionStorage].
    rewrite lookup_insert_ne by discriminate. apply lookup_insert_eq. }
  assert (Hc1' : truthy (AuthContext.getItem "learning_session_id" (reloaded r1.1)) = true)
    by (rewrite Hget; by apply truthy_Some).
  destruct (getSession_then_reuses_cached other_id t3 t4 uid (reloaded r1.1) r1.2 Hc1')
    as (Hs2 & Hp2 & Hcur & _).
  fold r2 in Hs2, Hp2, Hcur. rewrite Hget in Hcur. repeat split; try done.
  subst r2. unfold AuthContext.getSession_then, bind, ret.
  by repeat (case_match; cbn [fst snd AuthContext.isLoading AuthContext.setIsLoading]).
Qed.

Lemma reload_opens_no_second_session_sample :
  let r1 := AuthContext.getSession_then sid1 600000 600001 (Some uid1)
              (AuthContext.mkClient None None None true ∅) fresh_db in
  let r2 := AuthContext.getSession_then sid2 700000 700001 (Some uid1) (reloaded r1.1) r1.2 in
  sessions r1.2 = <[sid1 := mkSession uid1 600000 None None]> (sessions fresh_db)
  /\ sessions r2.2 = sessions r1.2
  /\ profiles r2.2 = profiles r1.2
  /\ AuthContext.currentSessionId r2.1 = Some sid1
  /\ AuthContext.isLoading r2.1 = false.
Proof.
  apply (reload_opens_no_second_session fresh_db (AuthContext.mkClient None None None true ∅)
           sid1 sid2 uid1 alice 600000 600001 700000 700001);
    first [discriminate | reflexivity].
Defined.

(** X14: the [SIGNED_OUT] event makes no persistence call (it does not close
    the session) and empties the cache: whatever the state before, the
    current session id is null afterwards and the unload handler sends no
    beacon. *)
Theorem signed_out_clears_the_cache
    (new_id : string) (t1 t2 now : Z) (currentSession : option string)
    (c : AuthContext.Client) (db : Db) :
  let r := AuthContext.onAuthStateChange new_id t1 t2 AuthContext.SIGNED_OUT
             currentSession c db in
  r.2 = db
  /\ AuthContext.currentSessionId r.1 = None
  /\ AuthContext.profile r.1 = None
  /\ AuthContext.getItem "learning_session_id" r.1 = None
  /\ AuthContext.getItem "user_id" r.1 = None
  /\ AuthContext.handleBeforeUnload now r.1 = None.
Proof.
  cbn zeta. unfold_client. unfold ret. simpl.
  rewrite lookup_delete_eq.
  rewrite lookup_delete_ne by discriminate. rewrite lookup_delete_eq.
  by repeat split.
Qed.

(** X15: what the unload handler sends closes the cached session.  When the
    cache holds a session id and a user id and the session exists, the
    handler produces a payload, and the edge function given that payload
    answers 200 with the duration [d] the server computes from the time the
    browser read on its clock (not the server's).  The session row is closed
    at that time with [d] when [d] fits the INTEGER column, and the cached
    user's profile credited when the new total fits; a row whose number does
    not fit stays as it was, and so does every other row. *)
Theorem unload_beacon_closes_the_cached_session
    (c : AuthContext.Client) (db : Db) (sid uid : string) (s : Session)
    (t_browser t_server : Z) :
  AuthContext.getItem "learning_session_id" c = Some sid ->
  AuthContext.getItem "user_id" c = Some uid ->
  sid <> "" -> uid <> "" ->
  sessions db !! sid = Some s ->
  exists payload,
    AuthContext.handleBeforeUnload t_browser c = Some payload
    /\ let r := CloseSession.serve t_server (mkRequest "POST" (Some payload)) db in
       let d := Z.max 0 (round_minutes (t_browser - login_at s)) in
       r.1 = mkResponse 200 (Closed d)
       /\ sessions r.2 !! sid
          = Some (if int4 d
                  then mkSession (user_id s) (login_at s) (Some t_browser) (Some d)
                  else s)
       /\ profiles r.2 !! uid
          = (fun p => if int4 (total_active_minutes p + d)
                      then mkProfile (email p) (last_login_at p) (Some t_browser)
                             (total_active_minutes p + d)
                      else p) <$> profiles db !! uid
       /\ (forall other, other <> sid -> sessions r.2 !! other = sessions db !! other)
       /\ (forall other, other <> uid -> profiles r.2 !! other = profiles db !! other).
Proof.
  intros Hcs Hcu Hsid Huid Hs.
  exists (mkPayload (Some sid) (Some uid) (Some (ValidDate t_browser))). split.
  - unfold AuthContext.handleBeforeUnload. rewrite Hcs, Hcu.
    apply truthy_Some in Hsid, Huid. by rewrite Hsid, Huid.
  - cbn zeta.
    destruct (serve_found t_server "POST" sid uid (Some (ValidDate t_browser)) db s t_browser)
      as (-> & -> & ->); try done.
    split; [done|]. split; [by apply closed_if_fits_lookup_either|].
    split; [apply credited_if_fits_lookup|]. split.
    + intros other Hother. by apply closed_if_fits_other.
    + intros other Hother. by apply credited_if_fits_other.
Qed.

Lemma unload_beacon_closes_the_cached_session_sample :
  exists payload,
    AuthContext.handleBeforeUnload 1020000 sample_client = Some payload
    /\ let r := CloseSession.serve 1020500 (mkRequest "POST" (Some payload)) sample_db in
       let d := Z.max 0 (round_minutes (1020000 - login_at (mkSession uid1 600000 None None))) in
       r.1 = mkResponse 200 (Closed d)
       /\ sessions r.2 !! sid1
          = Some (if int4 d
                  then mkSession uid1 600000 (Some 1020000) (Some d)
                  else mkSession uid1 600000 None None)
       /\ profiles r.2 !! uid1
          = (fun p => if int4 (total_active_minutes p + d)
                      then mkProfile (email p) (last_login_at p) (Some 1020000)
                             (total_active_minutes p + d)
                      else p) <$> profiles sample_db !! uid1
       /\ (forall other, other <> sid1 -> sessions r.2 !! other = sessions sample_db !! other)
       /\ (forall other, other <> uid1 -> profiles r.2 !! other = profiles sample_db !! other).
Proof.
  apply (unload_beacon_closes_the_cached_session sample_client sample_db sid1 uid1
           (mkSession uid1 600000 None None) 1020000 1020500);
    first [discriminate | reflexivity].
Defined.

(** X16: a sign-in for a user who has no profile row opens nothing: the
    insert is refused (the session's [user_id] must reference a profile),
    [createSession] yields null, no table changes, and neither the current
    session id nor the cache is set. *)
Theorem sign_in_without_profile_opens_nothing
    (new_id uid : string) (t1 t2 : Z) (c : AuthContext.Client) (db : Db) :
  profiles db !! uid = None ->
  let r := AuthContext.onAuthStateChange new_id t1 t2 AuthContext.SIGNED_IN (Some uid) c db in
  (AuthContext.createSession new_id t1 t2 uid db).1 = None
  /\ sessions r.2 = sessions db
  /\ profiles r.2 = profiles db
  /\ AuthContext.currentSessionId r.1 = None
  /\ AuthContext.profile r.1 = None
  /\ AuthContext.sessionStorage r.1 = AuthContext.sessionStorage c.
Proof.
  intros Hp. cbn zeta. unfold_client. unfold_db. simpl. rewrite Hp. simpl.
  by repeat split.
Qed.

Lemma sign_in_without_profile_opens_nothing_sample :
  let r := AuthContext.onAuthStateChange sid2 5 6 AuthContext.SIGNED_IN (Some "nobody")
             sample_client sample_db in
  (AuthContext.createSession sid2 5 6 "nobody" sample_db).1 = None
  /\ sessions r.2 = sessions sample_db
  /\ profiles r.2 = profiles sample_db
  /\ AuthContext.currentSessionId r.1 = None
  /\ AuthContext.profile r.1 = None
  /\ AuthContext.sessionStorage r.1 = AuthContext.sessionStorage sample_client.
Proof.
  apply (sign_in_without_profile_opens_nothing sid2 "nobody" 5 6 sample_client sample_db).
  reflexivity.
Defined.

(** ** The dashboard *)

#[local] Instance newer_first_total : Total Dashboard.newer_first.
Proof. intros a b. unfold Dashboard.newer_first. lia. Qed.

#[local] Instance newer_first_trans : Transitive Dashboard.newer_first.
Proof. intros a b c. unfold Dashboard.newer_first. lia. Qed.

(** X17: the rows the dashboard gets for "Recent Learning Sessions" are at
    most five, without repetition, all sessions of the table that belong to
    the user, newest first; and they are the newest: a session of the user
    that is not among them exists only when five are shown, and none of those
    five started before it. *)
Theorem recent_sessions_are_the_newest_five (userId : string) (db : Db) :
  let rows := Dashboard.select_recent userId db in
  (length rows <= 5)%nat
  /\ NoDup rows
  /\ (forall k s, (k, s) ∈ rows -> sessions db !! k = Some s /\ user_id s = userId)
  /\ StronglySorted Dashboard.newer_first rows
  /\ (forall k s, sessions db !! k = Some s -> user_id s = userId -> (k, s) ∉ rows ->
        length rows = 5%nat
        /\ forall k' s', (k', s') ∈ rows -> login_at s <= login_at s').
Proof.
  cbn zeta. unfold Dashboard.select_recent.
  set (own := filter _ (map_to_list (sessions db))).
  set (sorted := merge_sort Dashboard.newer_first own).
  assert (Hperm : sorted ≡ₚ own) by apply merge_sort_Permutation.
  assert (Hsorted : StronglySorted Dashboard.newer_first sorted)
    by apply (StronglySorted_merge_sort _).
  assert (Hown : forall k s, (k, s) ∈ own <-> sessions db !! k = Some s /\ user_id s = userId).
  { intros k s. unfold own. rewrite list_elem_of_filter, elem_of_map_to_list. simpl. tauto. }
  rewrite <- (take_drop 5 sorted) in Hsorted.
  apply StronglySorted_app in Hsorted as (Hcross & Hhead & _).
  split; [rewrite length_take; lia|].
  split.
  { apply (sublist_NoDup _ sorted); [|apply sublist_take].
    rewrite Hperm. apply NoDup_filter, NoDup_map_to_list. }
  split.
  { intros k s Hin. apply Hown. rewrite <- Hperm. by apply (subseteq_take 5). }
  split; [done|].
  intros k s Hs Hu Hnot.
  assert (Hin : (k, s) ∈ sorted) by (rewrite Hperm; by apply Hown).
  rewrite <- (take_drop 5 sorted), elem_of_app in Hin.
  destruct Hin as [Hin|Hin]; [done|].
  split.
  - apply length_take_le.
    destruct (decide (5 <= length sorted)%nat) as [|Hshort]; [done|].
    rewrite drop_ge in Hin by lia. by apply elem_of_nil in Hin.
  - intros k' s' Hin'. apply (Hcross (k', s') (k, s) Hin' Hin).
Qed.

Lemma select_recent_in_table userId db k s :
  (k, s) ∈ Dashboard.select_recent userId db ->
  sessions db !! k = Some s /\ user_id s = userId.
Proof.
  unfold Dashboard.select_recent. intros Hin.
  apply (subseteq_take 5) in Hin. rewrite merge_sort_Permutation in Hin.
  apply list_elem_of_filter in Hin as [Hu Hin]. by apply elem_of_map_to_list in Hin.
Qed.

(** X18: a row of the recent sessions never shows a finished session as
    running or a running one as finished.  In every store the lifecycle
    operations produce, the row of a session has the "completed" icon
    exactly when its cell shows a duration (and the "active" icon exactly
    when the cell reads "Active Now"). *)
Theorem recent_row_icon_and_cell_agree
    (castsToObjectId : string -> bool) (comparePassword : string -> string -> bool)
    (db : Db) (userId k : string) (s : Session) :
  reachable castsToObjectId comparePassword db ->
  (k, s) ∈ Dashboard.select_recent userId db ->
  ((Dashboard.session_row s).1 = Dashboard.CheckCircle
   <-> exists d, duration_minutes s = Some d
                 /\ (Dashboard.session_row s).2 = Dashboard.Duration (Dashboard.formatTime d))
  /\ ((Dashboard.session_row s).1 = Dashboard.Activity
      <-> (Dashboard.session_row s).2 = Dashboard.ActiveNow).
Proof.
  intros Hreach Hin.
  destruct (select_recent_in_table userId db k s Hin) as [Hs _].
  pose proof (reachable_all_paired castsToObjectId comparePassword db Hreach k s Hs) as Hp.
  unfold paired in Hp. unfold Dashboard.session_row.
  destruct (logout_at s) as [t|], (duration_minutes s) as [d|]; simpl; split; split;
    try done; try (intros [? [? ?]]; done); eauto.
  - destruct Hp as [_ Hp]. by specialize (Hp eq_refl).
  - destruct Hp as [_ Hp]. by specialize (Hp eq_refl).
  - destruct Hp as [Hp _]. by specialize (Hp eq_refl).
  - destruct Hp as [Hp _]. by specialize (Hp eq_refl).
Qed.

Lemma recent_row_icon_and_cell_agree_sample :
  ((Dashboard.session_row (mkSession uid1 600000 (Some 1020000) (Some 7))).1
   = Dashboard.CheckCircle
   <-> exists d, duration_minutes (mkSession uid1 600000 (Some 1020000) (Some 7)) = Some d
                 /\ (Dashboard.session_row (mkSession uid1 600000 (Some 1020000) (Some 7))).2
                    = Dashboard.Duration (Dashboard.formatTime d))
  /\ ((Dashboard.session_row (mkSession uid1 600000 (Some 1020000) (Some 7))).1
      = Dashboard.Activity
      <-> (Dashboard.session_row (mkSession uid1 600000 (Some 1020000) (Some 7))).2
          = Dashboard.ActiveNow).
Proof.
  apply (recent_row_icon_and_cell_agree is_hex24 (fun _ _ => true) sample_closed_db uid1 sid1).
  - exact (reachable_step _ _ _ (Logout 1020000 uid1 (Some sid1))
             (reachable_step _ _ _ (CreateSession sid1 600000 600001 uid1)
                (reachable_init _ _ fresh_db eq_refl))).
  - vm_compute. left.
Defined.

(** X19: [ProtectedRoute] and the dashboard's own early returns decide alike
    for every state of the provider, and the page is rendered only for a
    signed-in user once loading is over. *)
Theorem dashboard_guard_agrees_with_ProtectedRoute (c : AuthContext.Client) :
  Dashboard.guard (ProtectedRoute.isAuthenticated c) (AuthContext.isLoading c)
  = ProtectedRoute.ProtectedRoute (ProtectedRoute.isAuthenticated c) (AuthContext.isLoading c)
  /\ (ProtectedRoute.ProtectedRoute (ProtectedRoute.isAuthenticated c) (AuthContext.isLoading c)
      = ProtectedRoute.Children
      <-> AuthContext.user c <> None /\ AuthContext.isLoading c = false).
Proof.
  unfold Dashboard.guard, ProtectedRoute.ProtectedRoute, ProtectedRoute.isAuthenticated.
  destruct (AuthContext.user c), (AuthContext.isLoading c); simpl; split; try done;
    split; try done; intros [? ?]; done.
Qed.

(** ** [formatTime] *)

Lemma no_blank_pretty_N_go (x : N) (s : string) :
  no_blank s -> no_blank (pretty_N_go x s).
Proof.
  revert s. induction (N.lt_wf_0 x) as [x _ IH]. intros s Hs.
  destruct (decide (0 < x)%N) as [Hx|Hx].
  - rewrite pretty_N_go_step by done. apply IH.
    + by apply N.div_lt.
    + simpl. split; [|done]. unfold pretty_N_char. by repeat case_match.
  - replace x with 0%N by lia. by rewrite pretty_N_go_0.
Qed.

Lemma no_blank_pretty_N (x : N) : no_blank (pretty x).
Proof.
  unfold pretty, pretty_N. case_decide.
  - simpl. split; done.
  - by apply no_blank_pretty_N_go.
Qed.

Lemma no_blank_pretty_Z (z : Z) : no_blank (pretty z).
Proof.
  destruct z as [|q|q]; unfold pretty, pretty_Z.
  - simpl. split; done.
  - apply no_blank_pretty_N.
  - simpl. split; [done|]. apply no_blank_pretty_N.
Qed.

(** Two texts that start with a word and a blank are equal only when the
    words and the rests are. *)
Lemma append_blank_inj (a b r1 r2 : string) :
  no_blank a -> no_blank b ->
  a +:+ String Ascii.Space r1 = b +:+ String Ascii.Space r2 ->
  a = b /\ r1 = r2.
Proof.
  revert b. induction a as [|c a IH]; intros [|c' b] Ha Hb Heq; simpl in *.
  - by injection Heq as ->.
  - injection Heq as <- _. by destruct Hb.
  - injection Heq as -> _. by destruct Ha.
  - injection Heq as -> Heq. destruct Ha as [_ Ha], Hb as [_ Hb].
    destruct (IH b Ha Hb Heq) as [-> ->]. done.
Qed.

Lemma append_cancel_l (p x y : string) : p +:+ x = p +:+ y -> x = y.
Proof. induction p as [|c p IH]; simpl; [done|]. intros [= H]. by apply IH. Qed.

(** The number [formatTime] starts with, and the text after the blank that
    follows it. *)
Lemma formatTime_shape (minutes : Z) :
  Dashboard.formatTime minutes
  = pretty (if minutes <? 60 then minutes else minutes / 60)
    +:+ String Ascii.Space
          (if minutes <? 60
           then "minute" +:+ (if negb (minutes =? 1) then "s" else "")
           else "hour" +:+ (if negb (minutes / 60 =? 1) then "s" else "") +:+ " "
                +:+ (if 0 <? Z.rem minutes 60
                     then "and " +:+ pretty (Z.rem minutes 60) +:+ " minute"
                          +:+ (if negb (Z.rem minutes 60 =? 1) then "s" else "")
                     else "")).
Proof. unfold Dashboard.formatTime. by destruct (minutes <? 60). Qed.

(** X20: [formatTime] shows different numbers of minutes as different
    texts. *)
Theorem formatTime_is_injective (m1 m2 : Z) :
  Dashboard.formatTime m1 = Dashboard.formatTime m2 -> m1 = m2.
Proof.
  rewrite !formatTime_shape. intros Heq.
  apply append_blank_inj in Heq as [Hlead Hrest]; [|apply no_blank_pretty_Z..].
  apply (inj pretty) in Hlead.
  destruct (Z.ltb_spec m1 60) as [H1|H1], (Z.ltb_spec m2 60) as [H2|H2];
    [done | discriminate Hrest | discriminate Hrest |].
  rewrite Hlead in Hrest. apply (append_cancel_l "hour") in Hrest.
  apply append_cancel_l in Hrest. apply (append_cancel_l " ") in Hrest.
  assert (Hr : Z.rem m1 60 = Z.rem m2 60).
  { destruct (Z.ltb_spec 0 (Z.rem m1 60)) as [Ha|Ha], (Z.ltb_spec 0 (Z.rem m2 60)) as [Hb|Hb];
      try discriminate Hrest.
    - apply (append_cancel_l "and ") in Hrest.
      change (" minute" +:+ ?x) with (String Ascii.Space ("minute" +:+ x)) in Hrest.
      apply append_blank_inj in Hrest as [Hm _]; [|apply no_blank_pretty_Z..].
      by apply (inj pretty) in Hm.
    - pose proof (Z.rem_nonneg m1 60 ltac:(lia) ltac:(lia)).
      pose proof (Z.rem_nonneg m2 60 ltac:(lia) ltac:(lia)). lia. }
  rewrite (Z.quot_rem' m1 60), (Z.quot_rem' m2 60), Hr.
  rewrite !Z.quot_div_nonneg by lia. by rewrite Hlead.
Qed.

Lemma formatTime_is_injective_sample :
  Dashboard.formatTime 125 = "2 hours and 5 minutes" /\ 125 = 60 * 2 + 5.
Proof.
  split; [reflexivity|].
  apply (formatTime_is_injective 125 (60 * 2 + 5)). reflexivity.
Defined.

(** The blank after the hours stays when no minutes follow; one minute is
    singular; a negative total (the client can produce one) is shown with its
    sign. *)
Example formatTime_examples :
  Dashboard.formatTime 60 = "1 hour "
  /\ Dashboard.formatTime 61 = "1 hour and 1 minute"
  /\ Dashboard.formatTime 1 = "1 minute"
  /\ Dashboard.formatTime 0 = "0 minutes"
  /\ Dashboard.formatTime (-2) = "-2 minutes".
Proof. repeat split; reflexivity. Qed.

(** ** One row at a time *)

(** X21: every lifecycle operation changes at most one session row and at
    most one profile row: there are a session key and a profile key such that
    all rows under other keys are after the operation what they were before. *)
Theorem each_operation_touches_one_row_per_table
    (castsToObjectId : string -> bool) (comparePassword : string -> string -> bool)
    (op : Op) (db : Db) :
  exists sid uid,
    (forall other, other <> sid ->
       sessions (step castsToObjectId comparePassword op db) !! other = sessions db !! other)
    /\ (forall other, other <> uid ->
          profiles (step castsToObjectId comparePassword op db) !! other
          = profiles db !! other).
Proof.
  assert (Hs : exists sid, forall other, other <> sid ->
             sessions (step castsToObjectId comparePassword op db) !! other
             = sessions db !! other).
  { destruct (step_sessions castsToObjectId comparePassword op db)
      as [-> | [(k & s0 & t & d & _ & ->) | (k & uid & t & _ & ->)]].
    - by exists "".
    - exists k. intros other Hne. by rewrite lookup_insert_ne.
    - exists k. intros other Hne. by rewrite lookup_insert_ne. }
  assert (Hp : exists uid, forall other, other <> uid ->
             profiles (step castsToObjectId comparePassword op db) !! other
             = profiles db !! other).
  { destruct (step_profiles castsToObjectId comparePassword op db)
      as [-> | [(t & d & k & _ & ->) | (t & k & p0 & _ & ->)]].
    - by exists "".
    - exists k. intros other Hne. rewrite credited_lookup. by destruct (decide (other = k)).
    - exists k. intros other Hne. by rewrite lookup_insert_ne. }
  destruct Hs as [sid Hs], Hp as [uid Hp]. by exists sid, uid.
Qed.
